(** * serverless-plugin-share: the plugin of src/index.js, embedded and checked

    The plugin republishes a deployed service: it reads the compiled
    CloudFormation template from the deployment bucket, edits it
    ([elaborateTemplate]), uploads it and the code archive to a destination
    bucket and prints a share link.

    The embedding follows the JavaScript of src/index.js line by line.
    - A JavaScript value is a [value]: what [JSON.parse] returns, plus
      [undefined].  An object is its property list, in the order [for..in]
      walks it.
    - The template is mutated in place, so every stage is a computation over
      a [store] that holds the template and the lines given to
      [serverless.cli.log]; a [throw] keeps the store as it was when the
      exception left the method.
    - The object store, the file system and Node's [path] module are outside
      the plugin; what they answer is an input of the stage that asks. *)

From stdpp Require Import base option list strings pretty sorting.
From Stdlib Require Import ZArith Ascii.

Set Warnings "-register-all".
Local Open Scope string_scope.

(** ** Property lists *)

Module Props.
Section Ops.
Context {A : Type}.
Implicit Types (k : string) (ps : list (string * A)).

(** [ps\[k\]] for an own property. *)
Fixpoint get k ps : option A :=
  match ps with
  | [] => None
  | (k', a) :: ps' => if decide (k = k') then Some a else get k ps'
  end.

(** [delete o\[k\]]. *)
Fixpoint remove k ps : list (string * A) :=
  match ps with
  | [] => []
  | (k', a) :: ps' =>
      if decide (k = k') then remove k ps' else (k', a) :: remove k ps'
  end.

(** [o\[k\] = a]: an existing property keeps its place, a new one goes last. *)
Fixpoint set k (a : A) ps : list (string * A) :=
  match ps with
  | [] => [(k, a)]
  | (k', a') :: ps' =>
      if decide (k = k') then (k, a) :: ps' else (k', a') :: set k a ps'
  end.

Definition keys ps : list string := ps.*1.
End Ops.
End Props.

(** ** JavaScript values *)

(** [VNum n] is the integer [n]; the plugin never computes with a number, it
    only tests one for truth and prints it. *)
Inductive value : Type :=
| VUndefined
| VNull
| VBool (b : bool)
| VNum (n : Z)
| VStr (s : string)
| VArr (items : list value)
| VObj (props : list (string * value)).

(** What a method can throw: a [TypeError] of the runtime, named by the line
    of src/index.js where the expression that raises it starts; an [Error]
    the plugin builds itself; the rejection of a request to the provider or
    of a file operation. *)
Inductive error : Type :=
| TypeError (line : nat)
| Error (message : string)
| Rejected (reason : string).

Module Js.

Definition nullish (v : value) : bool :=
  match v with VUndefined | VNull => true | _ => false end.

(** ToBoolean. *)
Definition truthy (v : value) : bool :=
  match v with
  | VUndefined | VNull => false
  | VBool b => b
  | VNum n => negb (n =? 0)%Z
  | VStr s => negb (bool_decide (s = ""))
  | VArr _ | VObj _ => true
  end.

(** [v === 'text']. *)
Definition is_string (text : string) (v : value) : bool :=
  match v with VStr s => bool_decide (s = text) | _ => false end.

(** [a || b]. *)
Definition or (a b : value) : value := if truthy a then a else b.

(** [v.name] where [v] is neither [undefined] nor [null] and [name] is one
    of the names the plugin writes in its text ([Resources], [Parameters],
    [Type], [Properties], [Code], [S3Bucket], [Ref], [key], ...): none of
    them is defined by a prototype of the runtime, so only an object's own
    property answers. *)
Definition prop (name : string) (v : value) : value :=
  match v with
  | VObj ps => default VUndefined (Props.get name ps)
  | _ => VUndefined
  end.

(** The names every plain object inherits from [Object.prototype]. *)
Definition Object_prototype_names : list string :=
  [ "constructor"; "__defineGetter__"; "__defineSetter__"; "hasOwnProperty";
    "__lookupGetter__"; "__lookupSetter__"; "isPrototypeOf";
    "propertyIsEnumerable"; "toString"; "valueOf"; "__proto__";
    "toLocaleString" ].

Definition inherited (name : string) : bool :=
  bool_decide (name ∈ Object_prototype_names).

(** What [o\[key\]] finds on a plain object for a key chosen at run time:
    an own property, a built-in of the runtime reached through the
    prototype, or nothing. *)
Inductive found : Type :=
| Own (v : value)
| Builtin
| Missing.

Definition find (key : string) (ps : list (string * value)) : found :=
  match Props.get key ps with
  | Some v => Own v
  | None => if inherited key then Builtin else Missing
  end.

(** The properties [for (key in v)] walks, with their values. *)
Definition chars (s : string) : list value :=
  (fun c => VStr (String c "")) <$> String.list_ascii_of_string s.

Definition entries (v : value) : list (string * value) :=
  match v with
  | VObj ps => ps
  | VArr items => imap (fun i x => (pretty i, x)) items
  | VStr s => imap (fun i x => (pretty i, x)) (chars s)
  | _ => []
  end.

(** ToString, as a template literal and [+] on a string apply it.  An
    array or an object prints through methods looked up at run time, and a
    number of 22 digits or more in exponent form: no answer for those. *)
Definition to_string (v : value) : option string :=
  match v with
  | VUndefined => Some "undefined"
  | VNull => Some "null"
  | VBool true => Some "true"
  | VBool false => Some "false"
  | VNum n =>
      if bool_decide (Z.abs n < 10 ^ 21)%Z then Some (pretty n) else None
  | VStr s => Some s
  | VArr _ | VObj _ => None
  end.

(** [Array.prototype.sort] without a comparison function: the items are
    ordered by their ToString images, compared as strings, and items with
    equal images keep their order.  [image] is ToString on the items. *)
Section Sort.
Context {A : Type} (image : A → string).

Fixpoint insert (x : A) (sorted : list A) : list A :=
  match sorted with
  | [] => [x]
  | y :: sorted' =>
      if String.ltb (image y) (image x) then y :: insert x sorted'
      else x :: y :: sorted'
  end.

Definition sort (items : list A) : list A := foldr insert [] items.
End Sort.

End Js.

(** ** The plugin object, its host and the store *)

(** An item of [CommonPrefixes] in the answer to [listObjectsV2]. *)
Record common_prefix : Type := { Prefix : string }.

(** ToString of such an item: a plain object. *)
Definition common_prefix_image (_ : common_prefix) : string :=
  "[object Object]".

Inductive body : Type :=
| Json (templateData : value)      (* JSON.stringify(templateData) *)
| ReadStream (srcPath : string).   (* fs.createReadStream(srcPath) *)

(** The parameters of [putObject] and [upload]. *)
Record put_request : Type := {
  Bucket : value;
  Key : value;
  ACL : string;
  ContentType : string;
  Body : body;
}.

(** How a method call ends.  [Unmodelled] marks the places where the run
    depends on built-in objects of the runtime that the embedding does not
    describe: [Parameters] being a string, number, boolean or array (its
    indices and prototype answer the lookup), an assignment on an array or
    on a built-in reached through [Object.prototype], the printing of an
    array or object. *)
Inductive outcome (A : Type) : Type :=
| Returned (a : A)
| Threw (e : error)
| Unmodelled.
Arguments Returned {A} a.
Arguments Threw {A} e.
Arguments Unmodelled {A}.

(** What the constructor receives: the [serverless] object with its
    service, provider and Node's [path], and the command line [options].
    A request answers with [Returned] or rejects with [Threw]. *)
Record host : Type := {
  service : string;         (* serverless.service.service *)
  stage : string;           (* serverless.service.provider.stage *)
  custom : value;           (* serverless.service.custom *)
  options : value;
  path_join : list string → string;
  getServerlessDeploymentBucketName : outcome string;
  listObjectsV2 : string → string → outcome (list common_prefix);
  getObject : string → string → outcome string;
  putObject : put_request → outcome unit;
  upload : put_request → outcome unit;
  getBucketLocation : value → outcome string;
}.

(** The fields [init] assigns on [this]. *)
Record plugin : Type := {
  deploymentBucket : string;
  deploymentBucketPath : string;
  latestVersion : string;
  sourceKey : string;
  shareConfig : value;
  destBucket : value;
  destCodeKey : value;
  destTemplateKey : value;
  stackName : value;
}.

(** [this.templateKey], which [end] reads: no line of the class assigns it. *)
Definition templateKey (this : plugin) : value := VUndefined.

(** What the methods act on: the template in memory, the lines given to
    [serverless.cli.log], the files on disk. *)
Record store : Type := {
  document : value;
  log : list string;
  files : list (string * string);
}.

Definition M (A : Type) : Type := store → outcome A * store.

Definition ret {A} (a : A) : M A := fun st => (Returned a, st).

Definition bind {A B} (m : M A) (k : A → M B) : M B := fun st =>
  match m st with
  | (Returned a, st') => k a st'
  | (Threw e, st') => (Threw e, st')
  | (Unmodelled, st') => (Unmodelled, st')
  end.

Definition throw {A} (e : error) : M A := fun st => (Threw e, st).
Definition unmodelled {A} : M A := fun st => (Unmodelled, st).

Notation "x <- m ;; k" := (bind m (fun x => k))
  (at level 100, m at next level, right associativity).
Notation "m ;; k" := (bind m (fun _ => k))
  (at level 100, right associativity).

(** [await] on a request to the host. *)
Definition request {A} (answer : outcome A) : M A := fun st => (answer, st).

(** [this.serverless.cli.log(line)]. *)
Definition cli_log (line : string) : M unit := fun st =>
  (Returned (),
   {| document := document st; log := log st ++ [line]; files := files st |}).

Definition templateData : M value := fun st => (Returned (document st), st).

Definition mutate (f : value → value) : M unit := fun st =>
  (Returned (),
   {| document := f (document st); log := log st; files := files st |}).

(** [v.name], read at [line]. *)
Definition member (line : nat) (name : string) (v : value) : M value :=
  if Js.nullish v then throw (TypeError line) else ret (Js.prop name v).

(** A template literal or [+] printing [v]. *)
Definition print (v : value) : M string :=
  match Js.to_string v with
  | Some s => ret s
  | None => unmodelled
  end.

(** [o.name = v] on an object, and the write of a mutated child back to the
    place it is stored at; exact for a tree without sharing, which is what
    [JSON.parse] returns. *)
Definition assign (name : string) (v : value) (o : value) : value :=
  match o with
  | VObj ps => VObj (Props.set name v ps)
  | _ => o
  end.

Fixpoint for_each {A} (xs : list A) (body : A → M unit) : M unit :=
  match xs with
  | [] => ret ()
  | x :: xs' => body x ;; for_each xs' body
  end.

(** [fs.writeFileSync(path, data)], on a disk that takes the write. *)
Definition writeFileSync (path data : string) : M unit := fun st =>
  (Returned (),
   {| document := document st; log := log st;
      files := Props.set path data (files st) |}).

(** [fs.unlinkSync(path)]. *)
Definition unlinkSync (path : string) : M unit := fun st =>
  match Props.get path (files st) with
  | None => (Threw (Rejected "ENOENT"), st)
  | Some _ =>
      (Returned (),
       {| document := document st; log := log st;
          files := Props.remove path (files st) |})
  end.

(** ** getLatestVersion (lines 146 to 158) *)

Definition getLatestVersion (h : host)
    (deploymentBucket deploymentBucketPath : string) : M string :=
  _ <- member 151 "stage" (options h) ;;
  CommonPrefixes <-
    request (listObjectsV2 h deploymentBucket deploymentBucketPath) ;;
  match reverse (Js.sort common_prefix_image CommonPrefixes) with
  | [] => throw (Error "Version not found")
  | latestVersion :: _ => ret (Prefix latestVersion)
  end.

(** ** init (lines 73 to 96) *)

(** [{ ...base, ...v }]. *)
Definition spread (base : list (string * value)) (v : value)
  : list (string * value) :=
  foldl (fun ps e => Props.set e.1 e.2 ps) base (Js.entries v).

Definition init (h : host) : M plugin :=
  deploymentBucket <- request (getServerlessDeploymentBucketName h) ;;
  let deploymentBucketPath :=
    path_join h ["serverless"; service h; stage h; "/"] in
  latestVersion <- getLatestVersion h deploymentBucket deploymentBucketPath ;;
  cli_log ("Deploying version " +:+ latestVersion +:+ "..") ;;
  let sourceKey := path_join h [latestVersion; service h +:+ ".zip"] in
  share <- member 90 "share" (custom h) ;;
  let shareConfig :=
    VObj (spread [ ("bucket", VUndefined);
                   ("codeKey", VStr sourceKey);
                   ("templateKey", VStr "template.json");
                   ("stackName", VStr (service h));
                   ("parameters", VObj []) ] share) in
  bucket <- member 92 "bucket" (options h) ;;
  key <- member 93 "key" (options h) ;;
  key' <- member 94 "key" (options h) ;;
  stack <- member 95 "stackName" (options h) ;;
  ret {| deploymentBucket := deploymentBucket;
         deploymentBucketPath := deploymentBucketPath;
         latestVersion := latestVersion;
         sourceKey := sourceKey;
         shareConfig := shareConfig;
         destBucket := Js.or bucket (Js.prop "bucket" shareConfig);
         destCodeKey := Js.or key (Js.prop "key" shareConfig);
         destTemplateKey := Js.or key' (Js.prop "key" shareConfig);
         stackName := Js.or stack (Js.prop "stackName" shareConfig) |}.

(** ** elaborateTemplate (lines 180 to 212) *)

Definition ServerlessDeploymentBucket : string := "ServerlessDeploymentBucket".
Definition Lambda_Function : string := "AWS::Lambda::Function".

(** Line 181: [delete templateData.Resources.ServerlessDeploymentBucket]. *)
Definition deleteDeploymentBucket : M unit :=
  doc <- templateData ;;
  resources <- member 181 "Resources" doc ;;
  match resources with
  | VUndefined | VNull => throw (TypeError 181)
  | VObj ps =>
      mutate (assign "Resources"
                (VObj (Props.remove ServerlessDeploymentBucket ps)))
  | _ => ret ()
  end.

(** Line 186. *)
Definition rule_warning (key : string) : string :=
  "Rule " +:+ key +:+ " cannot be applied, parameters not found".

(** Writes the mutated [parameter] back at [templateData.Parameters\[key\]]. *)
Definition store_parameter (key : string) (parameter : value) : M unit :=
  mutate (fun doc =>
    assign "Parameters" (assign key parameter (Js.prop "Parameters" doc)) doc).

(** Lines 189 to 194, on a parameter of the template.  [delete] on a
    boolean, number, string or array finds no [Default] to remove; an
    assignment on a boolean, number or string throws in strict mode. *)
Definition applyRule (rule : value) (key : string) (parameter : value)
  : M unit :=
  if Js.is_string "required" rule then
    match parameter with
    | VNull | VUndefined => throw (TypeError 191)
    | VObj p => store_parameter key (VObj (Props.remove "Default" p))
    | _ => ret ()
    end
  else if Js.is_string "optional" rule then
    match parameter with
    | VNull | VUndefined => throw (TypeError 193)
    | VObj p => store_parameter key (VObj (Props.set "Default" (VStr "") p))
    | VArr _ => unmodelled
    | _ => throw (TypeError 193)
    end
  else ret ().

(** Lines 189 to 194, on a built-in reached through the prototype. *)
Definition applyRule_builtin (rule : value) : M unit :=
  if Js.is_string "required" rule then ret ()
  else if Js.is_string "optional" rule then unmodelled
  else ret ().

(** Lines 184 to 194: the body of the loop for one [key]. *)
Definition loop_body (rules : list (string * value)) (key : string)
  : M unit :=
  doc <- templateData ;;
  parameters <- member 184 "Parameters" doc ;;
  let rule := default VUndefined (Props.get key rules) in
  match parameters with
  | VUndefined | VNull => throw (TypeError 184)
  | VObj ps =>
      match Js.find key ps with
      | Js.Own VUndefined | Js.Missing => cli_log (rule_warning key)
      | Js.Own parameter => applyRule rule key parameter
      | Js.Builtin => applyRule_builtin rule
      end
  | _ => unmodelled
  end.

(** Lines 200 to 208: the callback of [forEach]. *)
Definition rewriteCode (this : plugin) (resource : value) : value :=
  let properties := Js.prop "Properties" resource in
  if Js.truthy properties
     && Js.truthy (Js.prop "Code" properties)
     && Js.truthy (Js.prop "S3Bucket" properties)
     && Js.is_string ServerlessDeploymentBucket
          (Js.prop "Ref" (Js.prop "S3Bucket" properties))
  then
    assign "Properties"
      (assign "S3Key" (destCodeKey this)
         (assign "S3Bucket" (destBucket this) properties))
      resource
  else resource.

(** Line 198: the callback of [filter]. *)
Definition isFunction (resource : value) : bool :=
  Js.is_string Lambda_Function (Js.prop "Type" resource).

(** Lines 197 to 209.  [filter] is a method of arrays only; it reads [Type]
    on every item before [forEach] changes the first of the selected ones. *)
Definition rewriteFunctions (this : plugin) : M unit :=
  doc <- templateData ;;
  resources <- member 197 "Resources" doc ;;
  match resources with
  | VArr items =>
      if existsb Js.nullish items then throw (TypeError 198)
      else
        mutate (assign "Resources"
          (VArr ((fun resource =>
                    if isFunction resource then rewriteCode this resource
                    else resource) <$> items)))
  | _ => throw (TypeError 197)
  end.

Definition elaborateTemplate (this : plugin) : M value :=
  deleteDeploymentBucket ;;
  (let rules := Js.entries (Js.prop "parameters" (shareConfig this)) in
   for_each (Props.keys rules) (loop_body rules)) ;;
  rewriteFunctions this ;;
  templateData.

(** ** saveTemplate, downloadCode, uploadCode (lines 219 to 256) *)

Definition saveTemplate_request (this : plugin) (doc : value) : put_request :=
  {| Bucket := destBucket this;
     Key := destTemplateKey this;
     ACL := "public-read";
     ContentType := "application/json";
     Body := Json doc |}.

Definition saveTemplate (h : host) (this : plugin) (doc : value) : M unit :=
  _ <- member 226 "stage" (options h) ;;
  request (putObject h (saveTemplate_request this doc)).

Definition downloadCode (h : host) (this : plugin) (destPath : string)
  : M unit :=
  _ <- member 238 "stage" (options h) ;;
  response_Body <-
    request (getObject h (deploymentBucket this) (sourceKey this)) ;;
  writeFileSync destPath response_Body.

Definition uploadCode_request (this : plugin) (srcPath : string)
  : put_request :=
  {| ACL := "public-read";
     Bucket := destBucket this;
     ContentType := "application/zip";
     Key := destCodeKey this;
     Body := ReadStream srcPath |}.

Definition uploadCode (h : host) (this : plugin) (srcPath : string)
  : M unit :=
  _ <- member 255 "stage" (options h) ;;
  request (upload h (uploadCode_request this srcPath)).

(** ** code (lines 119 to 124) *)

Definition tmpPath : string := "/tmp/code.zip".

Definition code (h : host) (this : plugin) : M unit :=
  downloadCode h this tmpPath ;;
  uploadCode h this tmpPath ;;
  unlinkSync tmpPath.

(** ** end (lines 132 to 139) *)

Definition getDestinationBucketRegion (h : host) (this : plugin) : M string :=
  _ <- member 264 "stage" (options h) ;;
  request (getBucketLocation h (destBucket this)).

(** The link as line 134 to 137 concatenate it. *)
Definition shareLink (stackName region destBucket templateKey : string)
  : string :=
  "https://console.aws.amazon.com/cloudformation/home#/stacks/new?" +:+
  ("stackName=" +:+ stackName) +:+
  "templateURL=https://" +:+ region +:+
  (".amazonaws.com/" +:+ destBucket +:+ "/" +:+ templateKey).

Definition end_ (h : host) (this : plugin) : M unit :=
  cli_log ("Version " +:+ latestVersion this +:+ " deployed!") ;;
  stack <- print (stackName this) ;;
  region <- getDestinationBucketRegion h this ;;
  bucket <- print (destBucket this) ;;
  key <- print (templateKey this) ;;
  cli_log ("Share link: " +:+ shareLink stack region bucket key).

(** ** The hooks that only log (lines 101 to 103, 109 to 111, 116 to 118,
    125 to 127) *)

Definition beforeTemplate : M unit :=
  cli_log "Deploying CloudFormation template..".

Definition afterTemplate : M unit :=
  cli_log "CloudFormation template is ready to share!".

Definition beforeCode : M unit := cli_log "Deploying code archive..".

Definition afterCode : M unit := cli_log "Code archive is ready to share!".

(** ** getCurrentTemplate (lines 165 to 172) *)

(** [JSON_parse] is [JSON.parse] of the runtime: a value, or the
    [SyntaxError] it throws. *)
Definition getCurrentTemplate (JSON_parse : string → outcome value)
    (h : host) (this : plugin) : M value :=
  _ <- member 169 "stage" (options h) ;;
  response_Body <-
    request (getObject h (deploymentBucket this)
               (path_join h [ latestVersion this;
                              "compiled-cloudformation-template.json" ])) ;;
  request (JSON_parse response_Body).

(** ** template (lines 104 to 108) *)

(** [templateData] is the parsed template: from line 105 on it is the
    template in memory that [elaborateTemplate] works on. *)
Definition template (JSON_parse : string → outcome value)
    (h : host) (this : plugin) : M unit :=
  parsed <- getCurrentTemplate JSON_parse h this ;;
  mutate (fun _ => parsed) ;;
  elaborated <- elaborateTemplate this ;;
  saveTemplate h this elaborated.

(** ** The command (lines 13 to 67) *)

(** The command [share] has the lifecycle events [init], [template], [code]
    and [end]; for each the framework runs the hooks registered under
    [before:share:<event>], [share:<event>] and [after:share:<event>], one
    after the other, and stops at the first that throws.  With the hooks of
    lines 55 to 67 a run of the command is this sequence. *)
Definition share (JSON_parse : string → outcome value) (h : host) : M unit :=
  this <- init h ;;
  beforeTemplate ;;
  template JSON_parse h this ;;
  afterTemplate ;;
  beforeCode ;;
  code h this ;;
  afterCode ;;
  end_ h this.

(** ** Vocabulary of the statements *)

(** The rule the loop reads for [key] at line 189. *)
Definition rule_of (rules : list (string * value)) (key : string) : value :=
  default VUndefined (Props.get key rules).

(** What lines 190 to 194 do to a parameter object. *)
Definition rule_effect (rule : value) (p : list (string * value))
  : list (string * value) :=
  if Js.is_string "required" rule then Props.remove "Default" p
  else if Js.is_string "optional" rule then Props.set "Default" (VStr "") p
  else p.

(** Every parameter of the template is an object, as the data model of a
    template has it. *)
Definition parameter_objects (ps : list (string * value)) : Prop :=
  ∀ name v, Props.get name ps = Some v → ∃ p, v = VObj p.

(** No key of [keys] that the template lacks is the name of a member of
    [Object.prototype]. *)
Definition plain_names (keys : list string) (ps : list (string * value))
  : Prop :=
  ∀ key, key ∈ keys → Props.get key ps = None → Js.inherited key = false.

(** The three marks of a template that has been elaborated for [this]:
    the deployment bucket is gone from a [Resources] mapping; *)
Definition bucket_removed (doc : value) : Prop :=
  ∀ r, Js.prop "Resources" doc = VObj r →
    Props.get ServerlessDeploymentBucket r = None.

(** every rule shows on the parameter object it names; *)
Definition rules_applied (rules : list (string * value)) (doc : value)
  : Prop :=
  ∀ ps key rule p,
    Js.prop "Parameters" doc = VObj ps →
    Props.get key rules = Some rule →
    Props.get key ps = Some (VObj p) →
    (rule = VStr "required" → Props.get "Default" p = None)
    ∧ (rule = VStr "optional" → Props.get "Default" p = Some (VStr "")).

(** every function resource with a code block and a bucket field has the
    destination bucket and key in its bucket and key fields. *)
Definition code_rewritten (this : plugin) (doc : value) : Prop :=
  ∀ items resource props,
    Js.prop "Resources" doc = VArr items →
    resource ∈ items →
    isFunction resource = true →
    Js.prop "Properties" resource = VObj props →
    Js.truthy (Js.prop "Code" (VObj props)) = true →
    Js.truthy (Js.prop "S3Bucket" (VObj props)) = true →
    Props.get "S3Bucket" props = Some (destBucket this)
    ∧ Props.get "S3Key" props = Some (destCodeKey this).

(** The share link as README.md shows it, with [&] between the two query
    parameters and the template key at the end. *)
Definition documented_link (stack region bucket templateKey : string)
  : string :=
  "https://console.aws.amazon.com/cloudformation/home#/stacks/new?" +:+
  "stackName=" +:+ stack +:+
  "&templateURL=https://" +:+ region +:+
  ".amazonaws.com/" +:+ bucket +:+ "/" +:+ templateKey.

(** Lines 201 to 204: the test of the [forEach] callback. *)
Definition pointsAtDeploymentBucket (resource : value) : bool :=
  let properties := Js.prop "Properties" resource in
  Js.truthy properties
  && Js.truthy (Js.prop "Code" properties)
  && Js.truthy (Js.prop "S3Bucket" properties)
  && Js.is_string ServerlessDeploymentBucket
       (Js.prop "Ref" (Js.prop "S3Bucket" properties)).

(** What line 198 to 208 make of one item of [Resources]. *)
Definition rewritten (this : plugin) (resource : value) : value :=
  if isFunction resource then rewriteCode this resource else resource.

(** [v'] is [v], but for the [Default] field when [v] is an object. *)
Definition same_but_Default (v v' : value) : Prop :=
  match v, v' with
  | VObj p, VObj p' =>
      ∀ name, name ≠ "Default" → Props.get name p' = Props.get name p
  | _, _ => v' = v
  end.

(** The parameters [ps'] are the parameters [ps] but for [Default] fields. *)
Definition parameters_kept (ps ps' : list (string * value)) : Prop :=
  Props.keys ps' = Props.keys ps
  ∧ ∀ name v, Props.get name ps = Some v →
      ∃ v', Props.get name ps' = Some v' ∧ same_but_Default v v'.

(** The listing ascends: every prefix is at most every later one. *)
Definition ascending (listing : list common_prefix) : Prop :=
  StronglySorted (fun a b => String.leb (Prefix a) (Prefix b) = true) listing.

(** [h] with another answer to [putObject]. *)
Definition with_putObject (h : host) (answer : put_request → outcome unit)
  : host :=
  {| service := service h;
     stage := stage h;
     custom := custom h;
     options := options h;
     path_join := path_join h;
     getServerlessDeploymentBucketName := getServerlessDeploymentBucketName h;
     listObjectsV2 := listObjectsV2 h;
     getObject := getObject h;
     putObject := answer;
     upload := upload h;
     getBucketLocation := getBucketLocation h |}.

(** From [lg] on only warnings of line 186 for keys of [keys] were logged. *)
Definition warnings_since (keys : list string) (lg lg' : list string)
  : Prop :=
  ∃ added : list string, lg' = (lg ++ added)%list
    ∧ ∀ line, line ∈ added → ∃ key, key ∈ keys ∧ line = rule_warning key.

(** ** Inputs the statements are tried on *)

(** A function resource as line 200 to 204 expect it. *)
Definition example_function : value :=
  VObj [ ("Type", VStr "AWS::Lambda::Function");
         ("Properties",
          VObj [ ("Code", VObj []);
                 ("S3Bucket",
                  VObj [("Ref", VStr "ServerlessDeploymentBucket")]) ]) ].

Definition example_parameter_list : list (string * value) :=
  [ ("P1", VObj [("Type", VStr "String"); ("Default", VStr "x")]);
    ("P2", VObj [("Type", VStr "String")]) ].

Definition example_parameters : value := VObj example_parameter_list.

Definition example_resource_list : list (string * value) :=
  [ ("ServerlessDeploymentBucket", VObj [("Type", VStr "AWS::S3::Bucket")]);
    ("Fn", example_function) ].

(** A template as CloudFormation has it: [Resources] maps names to
    resources. *)
Definition example_template_props : list (string * value) :=
  [ ("Resources", VObj example_resource_list);
    ("Parameters", example_parameters) ].

Definition example_template : value := VObj example_template_props.

(** The same resources as an array, the one shape [filter] exists on. *)
Definition example_array_template : value :=
  VObj [ ("Resources",
          VArr [ VObj [("Type", VStr "AWS::S3::Bucket")]; example_function ]);
         ("Parameters", example_parameters) ].

(** Three rules: one per kind, and one for a parameter that is missing. *)
Definition example_rules : value :=
  VObj [ ("P1", VStr "required"); ("P2", VStr "optional");
         ("P3", VStr "optional") ].

(** [this] after an [init] that found [bucket: pub] and the given
    [parameters] in [custom.share], and destination key [v1/code.zip]. *)
Definition example_plugin (parameters : value) : plugin :=
  {| deploymentBucket := "deployment";
     deploymentBucketPath := "serverless/svc/dev/";
     latestVersion := "serverless/svc/dev/1/";
     sourceKey := "serverless/svc/dev/1/svc.zip";
     shareConfig :=
       VObj [ ("bucket", VStr "pub");
              ("codeKey", VStr "serverless/svc/dev/1/svc.zip");
              ("templateKey", VStr "template.json");
              ("stackName", VStr "svc");
              ("parameters", parameters) ];
     destBucket := VStr "pub";
     destCodeKey := VStr "v1/code.zip";
     destTemplateKey := VStr "v1/code.zip";
     stackName := VStr "svc" |}.

Definition start (doc : value) : store :=
  {| document := doc; log := []; files := [] |}.

(** The template that the first run on [example_array_template] returns. *)
Definition example_elaborated : value :=
  VObj [ ("Resources",
          VArr [ VObj [("Type", VStr "AWS::S3::Bucket")];
                 VObj [ ("Type", VStr "AWS::Lambda::Function");
                        ("Properties",
                         VObj [ ("Code", VObj []);
                                ("S3Bucket", VStr "pub");
                                ("S3Key", VStr "v1/code.zip") ]) ] ]);
         ("Parameters",
          VObj [ ("P1", VObj [("Type", VStr "String")]);
                 ("P2", VObj [ ("Type", VStr "String");
                               ("Default", VStr "") ]) ]) ].

(** A stand-in for Node's [path.join]: it joins with [/] and drops a [/]
    that follows another, which is what [path.join] does on segments free
    of [.] and [..]. *)
Fixpoint collapse (s : string) : string :=
  match s with
  | String "/"%char (String "/"%char _ as rest) => collapse rest
  | String c rest => String c (collapse rest)
  | EmptyString => EmptyString
  end.

Definition example_path_join (parts : list string) : string :=
  collapse (String.concat "/" parts).

(** A command line that gives the four flags of lines 22 to 51. *)
Definition example_options : value :=
  VObj [ ("bucket", VStr "my-service-template-bucket");
         ("codeKey", VStr "my-vendor/my-version/code.zip");
         ("templateKey", VStr "my-vendor/my-version/template.json");
         ("stack", VStr "my-deployed-service") ].

(** A configuration with the options of README.md. *)
Definition example_custom : value :=
  VObj [ ("share",
          VObj [ ("bucket", VStr "my-public-bucket");
                 ("stack", VStr "my-shared-service");
                 ("codeKey", VStr "my-service/deployed/code.zip");
                 ("templateKey", VStr "my-service/deployed/template.json");
                 ("parameters", example_rules) ]) ].

(** A host that lists [CommonPrefixes] and answers the upload as given. *)
Definition example_host (CommonPrefixes : list common_prefix)
    (uploaded : outcome unit) : host :=
  {| service := "svc";
     stage := "dev";
     custom := example_custom;
     options := example_options;
     path_join := example_path_join;
     getServerlessDeploymentBucketName := Returned "deployment";
     listObjectsV2 := fun _ _ => Returned CommonPrefixes;
     getObject := fun _ _ => Returned "PK-archive";
     putObject := fun _ => Returned ();
     upload := fun _ => uploaded;
     getBucketLocation := fun _ => Returned "s3-eu-west-1" |}.

(** Two deployed versions, as S3 lists them and the other way round. *)
Definition listed_ascending : list common_prefix :=
  [ {| Prefix := "serverless/svc/dev/1700000000000-2023-11-14T22:13:20.000Z/" |};
    {| Prefix := "serverless/svc/dev/1800000000000-2027-01-15T08:00:00.000Z/" |} ].

Definition listed_descending : list common_prefix :=
  [ {| Prefix := "serverless/svc/dev/1800000000000-2027-01-15T08:00:00.000Z/" |};
    {| Prefix := "serverless/svc/dev/1700000000000-2023-11-14T22:13:20.000Z/" |} ].

(** What [init] assigns on [example_host listed_ascending]. *)
Definition example_this : plugin :=
  {| deploymentBucket := "deployment";
     deploymentBucketPath := "serverless/svc/dev/";
     latestVersion :=
       "serverless/svc/dev/1800000000000-2027-01-15T08:00:00.000Z/";
     sourceKey :=
       "serverless/svc/dev/1800000000000-2027-01-15T08:00:00.000Z/svc.zip";
     shareConfig :=
       VObj [ ("bucket", VStr "my-public-bucket");
              ("codeKey", VStr "my-service/deployed/code.zip");
              ("templateKey", VStr "my-service/deployed/template.json");
              ("stackName", VStr "svc");
              ("parameters", example_rules);
              ("stack", VStr "my-shared-service") ];
     destBucket := VStr "my-service-template-bucket";
     destCodeKey := VUndefined;
     destTemplateKey := VUndefined;
     stackName := VStr "svc" |}.

Definition example_started : store :=
  {| document := VUndefined;
     log := ["Deploying version serverless/svc/dev/1800000000000-2027-01-15T08:00:00.000Z/.."];
     files := [] |}.

(** A host whose provider rejects the listing. *)
Definition example_host_unlisted : host :=
  {| service := "svc";
     stage := "dev";
     custom := example_custom;
     options := example_options;
     path_join := example_path_join;
     getServerlessDeploymentBucketName := Returned "deployment";
     listObjectsV2 := fun _ _ => Threw (Rejected "AccessDenied");
     getObject := fun _ _ => Threw (Rejected "AccessDenied");
     putObject := fun _ => Returned ();
     upload := fun _ => Returned ();
     getBucketLocation := fun _ => Threw (Rejected "AccessDenied") |}.

(** A host for a service without a [custom] section. *)
Definition example_host_without_custom : host :=
  {| service := "svc";
     stage := "dev";
     custom := VUndefined;
     options := example_options;
     path_join := example_path_join;
     getServerlessDeploymentBucketName := Returned "deployment";
     listObjectsV2 := fun _ _ => Returned listed_ascending;
     getObject := fun _ _ => Returned "PK-archive";
     putObject := fun _ => Returned ();
     upload := fun _ => Returned ();
     getBucketLocation := fun _ => Returned "s3-eu-west-1" |}.

(** A stand-in for [JSON.parse] on the body of the stored template, whose
    parse is [doc]. *)
Definition example_parse (doc : value) : string → outcome value :=
  fun _ => Returned doc.

(** * Facts *)

(** ** Property lists *)

Module PropsFacts.
Section Facts.
Context {A : Type}.
Implicit Types (k : string) (ps : list (string * A)).
Import Props.

Lemma get_remove_eq k ps : get k (remove k ps) = None.
Proof.
  induction ps as [|[k' a] ps IH]; simpl; [done|].
  destruct (decide (k = k')) as [->|Hne]; [done|].
  simpl. by rewrite decide_False.
Qed.

Lemma get_remove_ne k k' ps : k ≠ k' → get k' (remove k ps) = get k' ps.
Proof.
  intros Hne. induction ps as [|[k0 a] ps IH]; simpl; [done|].
  destruct (decide (k = k0)) as [->|Hk].
  - by rewrite decide_False.
  - simpl. by rewrite IH.
Qed.

Lemma remove_absent k ps : get k ps = None → remove k ps = ps.
Proof.
  induction ps as [|[k' a] ps IH]; simpl; [done|].
  destruct (decide (k = k')); [done|]. intros H. by rewrite IH.
Qed.

Lemma remove_remove k ps : remove k (remove k ps) = remove k ps.
Proof. apply remove_absent, get_remove_eq. Qed.

Lemma get_set_eq k a ps : get k (set k a ps) = Some a.
Proof.
  induction ps as [|[k' a'] ps IH]; simpl.
  - by rewrite decide_True.
  - destruct (decide (k = k')) as [->|Hne]; simpl.
    + by rewrite decide_True.
    + by rewrite decide_False.
Qed.

Lemma get_set_ne k k' a ps : k ≠ k' → get k' (set k a ps) = get k' ps.
Proof.
  intros Hne. induction ps as [|[k0 a0] ps IH]; simpl.
  - by rewrite decide_False.
  - destruct (decide (k = k0)) as [->|Hk]; simpl.
    + by rewrite !decide_False.
    + by rewrite IH.
Qed.

Lemma set_same k a ps : get k ps = Some a → set k a ps = ps.
Proof.
  induction ps as [|[k' a'] ps IH]; simpl; [done|].
  destruct (decide (k = k')) as [->|Hne].
  - by intros [= ->].
  - intros H. by rewrite IH.
Qed.

Lemma set_set k a b ps : set k a (set k b ps) = set k a ps.
Proof.
  induction ps as [|[k' a'] ps IH]; simpl.
  - by rewrite decide_True.
  - destruct (decide (k = k')) as [->|Hne]; simpl.
    + by rewrite decide_True.
    + rewrite decide_False; [|done]. by rewrite IH.
Qed.

Lemma get_Some_keys k a ps : get k ps = Some a → k ∈ keys ps.
Proof.
  unfold keys. induction ps as [|[k' a'] ps IH]; simpl; [done|].
  destruct (decide (k = k')) as [->|Hne].
  - intros _. apply list_elem_of_here.
  - intros H. apply list_elem_of_further. by apply IH.
Qed.

Lemma keys_get k ps : k ∈ keys ps → is_Some (get k ps).
Proof.
  unfold keys. induction ps as [|[k' a'] ps IH]; simpl.
  - intros H. by apply not_elem_of_nil in H.
  - destruct (decide (k = k')) as [->|Hne]; [by eexists|].
    intros [H|H]%elem_of_cons; [done|]. by apply IH.
Qed.
End Facts.
End PropsFacts.

(** ** Runs *)

Lemma for_each_invariant {A} (I : store → Prop) (xs : list A)
    (body : A → M unit) :
  (∀ x st, x ∈ xs → I st → I (body x st).2) →
  ∀ st, I st → I (for_each xs body st).2.
Proof.
  induction xs as [|x xs IH]; intros Hbody st Hst; simpl; [done|].
  unfold bind.
  pose proof (Hbody x st (list_elem_of_here _ _) Hst) as H1.
  destruct (body x st) as [[[]|e|] st1]; simpl in *; try done.
  apply IH; [|done].
  intros y st' Hy. apply Hbody. by apply list_elem_of_further.
Qed.

Lemma prop_assign_ne name name' v o :
  name ≠ name' → Js.prop name' (assign name v o) = Js.prop name' o.
Proof.
  intros Hne. destruct o; simpl; try done.
  by rewrite PropsFacts.get_set_ne.
Qed.

Lemma prop_assign_eq name v ps :
  Js.prop name (assign name v (VObj ps)) = v.
Proof. simpl. by rewrite PropsFacts.get_set_eq. Qed.

(** Assigning to a property the value it holds changes nothing. *)
Lemma assign_same name v o : Js.prop name o = v → v ≠ VUndefined →
  assign name v o = o.
Proof.
  destruct o as [| | | | | |ps]; simpl; try done.
  intros Hv Hne. f_equal. apply PropsFacts.set_same.
  destruct (Props.get name ps); simpl in *; congruence.
Qed.

(** ** The loop leaves [Resources] alone *)

Lemma loop_body_Resources rules key st :
  Js.prop "Resources" (document (loop_body rules key st).2)
  = Js.prop "Resources" (document st).
Proof.
  unfold loop_body, bind, templateData, member, throw, ret, unmodelled.
  destruct (Js.nullish (document st)); [done|].
  destruct (Js.prop "Parameters" (document st)) as [| | | | | |ps]; try done.
  unfold applyRule, applyRule_builtin, store_parameter, mutate, cli_log,
    throw, ret, unmodelled.
  destruct (Js.find key ps) as [[]| |];
    repeat case_match; simpl; try done;
    by rewrite prop_assign_ne.
Qed.

Lemma loop_Resources rules keys st :
  Js.prop "Resources" (document (for_each keys (loop_body rules) st).2)
  = Js.prop "Resources" (document st).
Proof.
  apply (for_each_invariant
    (fun st' => Js.prop "Resources" (document st')
                = Js.prop "Resources" (document st))); [|done].
  intros key st' _ H. by rewrite loop_body_Resources.
Qed.

Lemma deleteDeploymentBucket_mapping d r lg fs :
  Props.get "Resources" d = Some (VObj r) →
  deleteDeploymentBucket {| document := VObj d; log := lg; files := fs |}
  = (Returned (),
     {| document :=
          assign "Resources"
            (VObj (Props.remove ServerlessDeploymentBucket r)) (VObj d);
        log := lg; files := fs |}).
Proof.
  intros Hr. unfold deleteDeploymentBucket, bind, templateData, member.
  simpl. by rewrite Hr.
Qed.

Lemma rewriteFunctions_mapping this st r :
  Js.prop "Resources" (document st) = VObj r →
  rewriteFunctions this st = (Threw (TypeError 197), st).
Proof.
  intros Hr. unfold rewriteFunctions, bind, templateData, member. simpl.
  destruct (document st) eqn:Hdoc; try done.
  simpl in *. by rewrite Hr.
Qed.

(** On a template whose [Resources] is a mapping the call removes the
    deployment bucket, never returns, and leaves every other resource as it
    was: line 197 throws before a resource is rewritten. *)
Lemma elaborateTemplate_mapping this d r lg fs :
  Props.get "Resources" d = Some (VObj r) →
  let run :=
    elaborateTemplate this {| document := VObj d; log := lg; files := fs |} in
  (∀ v, run.1 ≠ Returned v) ∧
  Js.prop "Resources" (document run.2)
  = VObj (Props.remove ServerlessDeploymentBucket r).
Proof.
  intros Hr. cbv zeta. unfold elaborateTemplate, bind.
  rewrite (deleteDeploymentBucket_mapping _ _ _ _ Hr).
  set (st1 := {| document := _; log := lg; files := fs |}).
  assert (H1 : Js.prop "Resources" (document st1)
               = VObj (Props.remove ServerlessDeploymentBucket r))
    by apply prop_assign_eq.
  set (rules := Js.entries _).
  pose proof (loop_Resources rules (Props.keys rules) st1) as Hloop.
  rewrite H1 in Hloop.
  destruct (for_each _ _ st1) as [[[]|e|] st2]; simpl in *; [|by split..].
  rewrite (rewriteFunctions_mapping _ _ _ Hloop). by split.
Qed.

(** ** Removal of the deployment bucket *)

(** C3. For every template whose [Resources] mapping holds an entry
    [ServerlessDeploymentBucket], the template that [elaborateTemplate]
    leaves has a [Resources] mapping without that entry and with every
    other entry as it was before the call: the entry is removed and no
    other one is.  The statement is about the template mutated in place,
    however the call ends. *)
Theorem elaborateTemplate_removes_deployment_bucket
    (this : plugin) (d r : list (string * value)) (lg : list string)
    (fs : list (string * string)) :
  Props.get "Resources" d = Some (VObj r) →
  is_Some (Props.get ServerlessDeploymentBucket r) →
  let run :=
    elaborateTemplate this {| document := VObj d; log := lg; files := fs |} in
  ∃ r', Js.prop "Resources" (document run.2) = VObj r'
    ∧ r' = Props.remove ServerlessDeploymentBucket r
    ∧ Props.get ServerlessDeploymentBucket r' = None
    ∧ ∀ name, name ≠ ServerlessDeploymentBucket →
        Props.get name r' = Props.get name r.
Proof.
  intros Hr _. cbv zeta.
  destruct (elaborateTemplate_mapping this d r lg fs Hr) as [_ Hres].
  eexists. split; [exact Hres|]. split; [done|]. split.
  - apply PropsFacts.get_remove_eq.
  - intros name Hne. by apply PropsFacts.get_remove_ne.
Qed.

Lemma elaborateTemplate_removes_deployment_bucket_witness :
  ∃ r', Js.prop "Resources"
          (document
             (elaborateTemplate (example_plugin example_rules)
                (start example_template)).2) = VObj r'
    ∧ Props.get ServerlessDeploymentBucket r' = None
    ∧ Props.get "Fn" r' = Some example_function.
Proof.
  destruct (elaborateTemplate_removes_deployment_bucket
              (example_plugin example_rules)
              example_template_props example_resource_list
              [] [] eq_refl (mk_is_Some _ _ eq_refl))
    as (r' & Hres & Hr' & Hgone & Hkept).
  exists r'. split; [exact Hres|]. split; [exact Hgone|].
  rewrite (Hkept "Fn"); [reflexivity|discriminate].
Defined.

(** ** The call on a CloudFormation template *)

(** C4. The claim promises that the call completes on every document that
    has [Resources].  On every template whose [Resources] is a mapping of
    names to resources, which is what CloudFormation templates hold and
    what line 181 deletes a name from, the call does not return a value:
    [templateData.Resources.filter] at line 197 is not a function.  A
    throw of the loop (a rule on a template without [Parameters]) ends the
    call earlier still. *)
Theorem elaborateTemplate_never_returns_on_mapping
    (this : plugin) (d r : list (string * value)) (lg : list string)
    (fs : list (string * string)) :
  Props.get "Resources" d = Some (VObj r) →
  ∀ v, (elaborateTemplate this
          {| document := VObj d; log := lg; files := fs |}).1 ≠ Returned v.
Proof.
  intros Hr. by destruct (elaborateTemplate_mapping this d r lg fs Hr).
Qed.

Lemma elaborateTemplate_never_returns_on_mapping_witness :
  (elaborateTemplate (example_plugin (VObj []))
     (start (VObj [("Resources", VObj [])]))).1 = Threw (TypeError 197)
  ∧ ∀ v, (elaborateTemplate (example_plugin (VObj []))
            (start (VObj [("Resources", VObj [])]))).1 ≠ Returned v.
Proof.
  split; [reflexivity|].
  exact (elaborateTemplate_never_returns_on_mapping
           (example_plugin (VObj [])) [("Resources", VObj [])] [] [] []
           eq_refl).
Defined.

(** C2. The claim promises that every function resource that points at the
    deployment bucket is rewritten to the destination bucket and key.  On
    the template below, whose [Resources] is a mapping, the call throws at
    line 197 and the function resource [Fn] is what it was: its bucket
    field still refers to [ServerlessDeploymentBucket] and it has no key
    field.  Only on an array does the step run: there the same resource is
    rewritten. *)
Theorem elaborateTemplate_mapping_leaves_function
    : let run :=
        elaborateTemplate (example_plugin (VObj [])) (start example_template)
      in
      run.1 = Threw (TypeError 197)
      ∧ Js.prop "Fn" (Js.prop "Resources" (document run.2)) = example_function
      ∧ Js.prop "S3Bucket" (Js.prop "Properties" example_function)
        = VObj [("Ref", VStr "ServerlessDeploymentBucket")]
      ∧ Js.prop "S3Key" (Js.prop "Properties" example_function) = VUndefined
      ∧ let run' :=
          elaborateTemplate (example_plugin (VObj []))
            (start example_array_template) in
        ∃ doc', run'.1 = Returned doc'
          ∧ Js.prop "Resources" doc'
            = VArr [ VObj [("Type", VStr "AWS::S3::Bucket")];
                     VObj [ ("Type", VStr "AWS::Lambda::Function");
                            ("Properties",
                             VObj [ ("Code", VObj []);
                                    ("S3Bucket", VStr "pub");
                                    ("S3Key", VStr "v1/code.zip") ]) ] ].
Proof.
  cbv zeta. repeat split. eexists. split; reflexivity.
Qed.

(** ** The parameter rules *)

Lemma rule_effect_idempotent rule p :
  rule_effect rule (rule_effect rule p) = rule_effect rule p.
Proof.
  unfold rule_effect. repeat case_match; try done.
  - apply PropsFacts.remove_remove.
  - apply PropsFacts.set_set.
Qed.

Lemma loop_body_object rules key d ps p lg fs :
  Props.get "Parameters" d = Some (VObj ps) →
  Props.get key ps = Some (VObj p) →
  loop_body rules key {| document := VObj d; log := lg; files := fs |}
  = (Returned (),
     {| document :=
          VObj (Props.set "Parameters"
                  (VObj (Props.set key
                           (VObj (rule_effect (rule_of rules key) p)) ps)) d);
        log := lg; files := fs |}).
Proof.
  intros Hps Hp.
  unfold loop_body, bind, templateData, member, ret. simpl. rewrite Hps.
  simpl. unfold Js.find. rewrite Hp.
  unfold applyRule, rule_effect, rule_of, store_parameter, mutate, ret.
  repeat case_match; simpl; rewrite ?Hps; simpl; try done.
  rewrite (PropsFacts.set_same key (VObj p) ps Hp).
  by rewrite (PropsFacts.set_same "Parameters" (VObj ps) d Hps).
Qed.

Lemma loop_body_missing rules key d ps lg fs :
  Props.get "Parameters" d = Some (VObj ps) →
  Props.get key ps = None →
  Js.inherited key = false →
  loop_body rules key {| document := VObj d; log := lg; files := fs |}
  = (Returned (),
     {| document := VObj d; log := lg ++ [rule_warning key]; files := fs |}).
Proof.
  intros Hps Hp Hin.
  unfold loop_body, bind, templateData, member, ret. simpl. rewrite Hps.
  simpl. unfold Js.find. by rewrite Hp, Hin.
Qed.

(** The loop on a template whose parameters are objects: every rule is
    applied, once is as good as twice, and nothing else changes. *)
Lemma loop_spec rules keys : ∀ d ps lg fs,
  Props.get "Parameters" d = Some (VObj ps) →
  parameter_objects ps →
  plain_names keys ps →
  ∃ ps' lg',
    for_each keys (loop_body rules)
      {| document := VObj d; log := lg; files := fs |}
    = (Returned (),
       {| document := VObj (Props.set "Parameters" (VObj ps') d);
          log := lg ++ lg'; files := fs |})
    ∧ (∀ key p, Props.get key ps = Some (VObj p) →
         Props.get key ps'
         = Some (VObj (if bool_decide (key ∈ keys)
                       then rule_effect (rule_of rules key) p else p)))
    ∧ (∀ key, Props.get key ps = None → Props.get key ps' = None)
    ∧ (∀ key, key ∈ keys → Props.get key ps = None →
         rule_warning key ∈ lg').
Proof.
  induction keys as [|k keys IH]; intros d ps lg fs Hps Hobj Hplain.
  - exists ps, []. simpl. unfold ret.
    rewrite PropsFacts.set_same by done. rewrite app_nil_r.
    split; [done|]. split; [|split]; [done..|].
    intros key Hkey. by apply elem_of_nil in Hkey.
  - simpl. unfold bind at 1.
    destruct (Props.get k ps) as [v|] eqn:Hk.
    + destruct (Hobj k v Hk) as [p ->].
      rewrite (loop_body_object rules k d ps p lg fs Hps Hk).
      set (p1 := rule_effect (rule_of rules k) p).
      set (ps1 := Props.set k (VObj p1) ps).
      assert (Hps1 : ∀ key, key ≠ k → Props.get key ps1 = Props.get key ps).
      { intros key Hne. unfold ps1. by rewrite PropsFacts.get_set_ne. }
      assert (Hk1 : Props.get k ps1 = Some (VObj p1))
        by apply PropsFacts.get_set_eq.
      destruct (IH (Props.set "Parameters" (VObj ps1) d) ps1 lg fs)
        as (ps' & lg' & Hrun & Hdone & Hnone & Hwarn).
      { apply PropsFacts.get_set_eq. }
      { intros name v Hv. destruct (decide (name = k)) as [->|Hne].
        - rewrite Hk1 in Hv. injection Hv as <-. by eexists.
        - rewrite Hps1 in Hv by done. by eapply Hobj. }
      { intros key Hkey Hv. destruct (decide (key = k)) as [->|Hne].
        - by rewrite Hk1 in Hv.
        - rewrite Hps1 in Hv by done. apply Hplain; [|done].
          by apply list_elem_of_further. }
      exists ps', lg'. rewrite Hrun, PropsFacts.set_set.
      split; [done|]. split; [|split].
      * intros key p0 Hp0. destruct (decide (key = k)) as [->|Hne].
        -- rewrite Hk in Hp0. injection Hp0 as <-.
           rewrite (Hdone k p1 Hk1).
           rewrite (bool_decide_true (k ∈ k :: keys))
             by apply list_elem_of_here.
           case_bool_decide; [|done].
           unfold p1. by rewrite rule_effect_idempotent.
        -- rewrite (Hdone key p0) by (by rewrite Hps1).
           rewrite (bool_decide_ext (key ∈ k :: keys) (key ∈ keys)); [done|].
           rewrite elem_of_cons. split; [by intros [?|?]|by right].
      * intros key Hkey. apply Hnone.
        destruct (decide (key = k)) as [->|Hne]; [congruence|].
        by rewrite Hps1.
      * intros key Hin Hkey.
        destruct (decide (key = k)) as [->|Hne]; [congruence|].
        apply Hwarn; [|by rewrite Hps1].
        by apply elem_of_cons in Hin as [?|?].
    + rewrite (loop_body_missing rules k d ps lg fs Hps Hk)
        by (apply Hplain; [apply list_elem_of_here|done]).
      destruct (IH d ps (lg ++ [rule_warning k])%list fs Hps Hobj)
        as (ps' & lg' & Hrun & Hdone & Hnone & Hwarn).
      { intros key Hkey. apply Hplain. by apply list_elem_of_further. }
      exists ps', (rule_warning k :: lg').
      rewrite Hrun. rewrite <- app_assoc. simpl.
      split; [done|]. split; [|split]; [|done|].
      * intros key p0 Hp0. rewrite (Hdone key p0 Hp0).
        rewrite (bool_decide_ext (key ∈ k :: keys) (key ∈ keys)); [done|].
        rewrite elem_of_cons. split; [|tauto].
        intros [->|]; [congruence|done].
      * intros key Hin Hkey. apply elem_of_cons in Hin as [->|Hin].
        -- apply list_elem_of_here.
        -- apply list_elem_of_further. by apply Hwarn.
Qed.

Lemma deleteDeploymentBucket_present d lg fs :
  Js.nullish (Js.prop "Resources" (VObj d)) = false →
  ∃ d1,
    deleteDeploymentBucket {| document := VObj d; log := lg; files := fs |}
    = (Returned (), {| document := VObj d1; log := lg; files := fs |})
    ∧ Props.get "Parameters" d1 = Props.get "Parameters" d.
Proof.
  intros Hres.
  unfold deleteDeploymentBucket, bind, templateData, member, ret. simpl.
  destruct (Js.prop "Resources" (VObj d)) as [| | | | | |r] eqn:Hr;
    simpl in *; rewrite ?Hr; try done; try (by exists d).
  eexists. split; [reflexivity|]. by rewrite PropsFacts.get_set_ne.
Qed.

Lemma rewriteFunctions_keeps this st :
  Js.prop "Parameters" (document (rewriteFunctions this st).2)
  = Js.prop "Parameters" (document st)
  ∧ log (rewriteFunctions this st).2 = log st.
Proof.
  unfold rewriteFunctions, bind, templateData, member, throw, ret, mutate.
  repeat case_match; simplify_eq; simpl; try done.
  split; [|done]. by rewrite prop_assign_ne.
Qed.

(** X20. Take a template that has [Resources], whose [Parameters] is a
    mapping of names to parameter objects, and a rule mapping in which no
    name that the template lacks is a member of [Object.prototype]
    ([toString], [constructor], ...).  In the template that
    [elaborateTemplate] leaves, for every rule [key]:
    - [required], parameter present: the parameter is the old one without its
      [Default] field;
    - [optional], parameter present: the parameter is the old one with
      [Default] set to the empty string;
    - parameter absent: it is still absent, and the warning of line 186 for
      [key] is in the log. *)
Theorem elaborateTemplate_applies_rules
    (this : plugin) (d ps : list (string * value)) (lg : list string)
    (fs : list (string * string)) :
  let rules := Js.entries (Js.prop "parameters" (shareConfig this)) in
  Js.nullish (Js.prop "Resources" (VObj d)) = false →
  Props.get "Parameters" d = Some (VObj ps) →
  parameter_objects ps →
  plain_names (Props.keys rules) ps →
  let run :=
    elaborateTemplate this {| document := VObj d; log := lg; files := fs |} in
  ∃ ps', Js.prop "Parameters" (document run.2) = VObj ps' ∧
    ∀ key rule, Props.get key rules = Some rule →
      (∀ p, Props.get key ps = Some (VObj p) → rule = VStr "required" →
         Props.get key ps' = Some (VObj (Props.remove "Default" p))
         ∧ Props.get "Default" (Props.remove "Default" p) = None)
      ∧ (∀ p, Props.get key ps = Some (VObj p) → rule = VStr "optional" →
           Props.get key ps' = Some (VObj (Props.set "Default" (VStr "") p))
           ∧ Props.get "Default" (Props.set "Default" (VStr "") p)
             = Some (VStr ""))
      ∧ (Props.get key ps = None →
           Props.get key ps' = None ∧ rule_warning key ∈ log run.2).
Proof.
  intros rules Hres Hps Hobj Hplain. cbv zeta.
  unfold elaborateTemplate, bind. fold rules.
  destruct (deleteDeploymentBucket_present d lg fs Hres) as (d1 & -> & Hd1).
  rewrite <- Hd1 in Hps.
  destruct (loop_spec rules (Props.keys rules) d1 ps lg fs Hps Hobj Hplain)
    as (ps' & lg' & -> & Hdone & Hnone & Hwarn).
  set (st2 := {| document := _; log := lg ++ lg'; files := fs |}).
  destruct (rewriteFunctions_keeps this st2) as [Hkeep Hlog].
  assert (Hfinal :
    ∀ run : outcome value * store,
      run = (let (o, st') := rewriteFunctions this st2 in
             match o with
             | Returned _ => templateData st'
             | Threw e => (Threw e, st')
             | Unmodelled => (Unmodelled, st')
             end) →
      Js.prop "Parameters" (document run.2) = VObj ps'
      ∧ log run.2 = (lg ++ lg')%list).
  { intros run ->.
    destruct (rewriteFunctions this st2) as [[[]|e|] st3]; simpl in *;
      rewrite Hkeep, Hlog; by rewrite PropsFacts.get_set_eq. }
  destruct (Hfinal _ eq_refl) as [HP HL].
  exists ps'. split; [exact HP|].
  intros key rule Hrule.
  assert (Hin : key ∈ Props.keys rules)
    by (by eapply PropsFacts.get_Some_keys).
  assert (Hrule_of : rule_of rules key = rule)
    by (unfold rule_of; by rewrite Hrule).
  split; [|split].
  - intros p Hp ->. split; [|apply PropsFacts.get_remove_eq].
    rewrite (Hdone key p Hp), bool_decide_true by done.
    by rewrite Hrule_of.
  - intros p Hp ->. split; [|apply PropsFacts.get_set_eq].
    rewrite (Hdone key p Hp), bool_decide_true by done.
    by rewrite Hrule_of.
  - intros Hp. split; [by apply Hnone|].
    rewrite HL. apply elem_of_app. right. by apply Hwarn.
Qed.

Lemma example_parameter_objects : parameter_objects example_parameter_list.
Proof.
  intros name v Hv. unfold example_parameter_list in Hv. simpl in Hv.
  repeat case_decide; simplify_eq; by eexists.
Qed.

Lemma elaborateTemplate_applies_rules_witness :
  let run :=
    elaborateTemplate (example_plugin example_rules) (start example_template)
  in
  ∃ ps', Js.prop "Parameters" (document run.2) = VObj ps'
    ∧ Props.get "P1" ps' = Some (VObj [("Type", VStr "String")])
    ∧ Props.get "P2" ps'
      = Some (VObj [("Type", VStr "String"); ("Default", VStr "")])
    ∧ Props.get "P3" ps' = None
    ∧ rule_warning "P3" ∈ log run.2.
Proof.
  cbv zeta.
  destruct (elaborateTemplate_applies_rules
              (example_plugin example_rules)
              example_template_props example_parameter_list [] []
              eq_refl eq_refl example_parameter_objects)
    as (ps' & HP & Hrules).
  { intros key Hin Hkey.
    repeat (apply elem_of_cons in Hin as [->|Hin]);
      [done..| by apply elem_of_nil in Hin]. }
  exists ps'. split; [exact HP|].
  destruct (Hrules "P1" (VStr "required") eq_refl) as (H1 & _ & _).
  destruct (Hrules "P2" (VStr "optional") eq_refl) as (_ & H2 & _).
  destruct (Hrules "P3" (VStr "optional") eq_refl) as (_ & _ & H3).
  destruct (H1 _ eq_refl eq_refl) as [-> _].
  destruct (H2 _ eq_refl eq_refl) as [-> _].
  destruct (H3 eq_refl) as [-> Hw].
  repeat split. exact Hw.
Defined.

(** C1. The claim promises, for every rule whose parameter is absent, the
    warning of line 186.  For a rule named like a member of
    [Object.prototype] the code gives none:
    [templateData.Parameters\["toString"\]] at line 184 is the inherited
    function, not [undefined], so the test of line 185 fails, nothing is
    logged and lines 189 to 191 apply the rule to that function, although
    the template has no parameter [toString].  Here the call returns and the
    log is empty. *)
Lemma elaborateTemplate_inherited_name_not_warned :
  let this := example_plugin (VObj [("toString", VStr "required")]) in
  let run := elaborateTemplate this (start example_array_template) in
  Props.get "toString" (Js.entries (Js.prop "parameters" (shareConfig this)))
  = Some (VStr "required")
  ∧ Props.get "toString" example_parameter_list = None
  ∧ (∃ doc, run.1 = Returned doc)
  ∧ rule_warning "toString" ∉ log run.2.
Proof.
  cbv zeta. split; [reflexivity|]. split; [reflexivity|].
  split; [by eexists|]. vm_compute. apply not_elem_of_nil.
Qed.

(** ** A second run *)

Lemma store_eta st :
  {| document := document st; log := log st; files := files st |} = st.
Proof. by destruct st. Qed.

Lemma deleteDeploymentBucket_noop st :
  bucket_removed (document st) →
  (deleteDeploymentBucket st).2 = st.
Proof.
  intros Hgone.
  unfold deleteDeploymentBucket, bind, templateData, member, throw, ret,
    mutate.
  destruct (Js.nullish (document st)); [done|]. simpl.
  destruct (Js.prop "Resources" (document st)) as [| | | | | |r] eqn:Hr;
    try done.
  simpl. rewrite (PropsFacts.remove_absent _ _ (Hgone r Hr)).
  rewrite assign_same by done. apply store_eta.
Qed.

Lemma is_string_eq text v : Js.is_string text v = true → v = VStr text.
Proof.
  destruct v; simpl; try done. intros H. by apply bool_decide_eq_true in H as ->.
Qed.

Lemma loop_body_noop rules key st :
  rules_applied rules (document st) →
  document (loop_body rules key st).2 = document st.
Proof.
  intros Happlied.
  unfold loop_body, bind, templateData, member, throw, ret, unmodelled.
  destruct (Js.nullish (document st)); [done|]. simpl.
  destruct (Js.prop "Parameters" (document st)) as [| | | | | |ps] eqn:Hps;
    try done.
  unfold Js.find.
  destruct (Props.get key ps) as [parameter|] eqn:Hkey;
    [|by destruct (Js.inherited key); unfold applyRule_builtin;
         repeat case_match].
  unfold applyRule, rule_of, store_parameter, mutate, cli_log, throw, ret,
    unmodelled.
  destruct (Props.get key rules) as [rule|] eqn:Hrule; simpl;
    [|by destruct parameter].
  destruct (Js.is_string "required" rule) eqn:Hreq.
  { destruct parameter as [| | | | | |p]; try done. simpl.
    destruct (Happlied ps key rule p Hps Hrule Hkey) as [Hno _].
    rewrite Hps. simpl.
    rewrite (PropsFacts.remove_absent _ _ (Hno (is_string_eq _ _ Hreq))).
    rewrite (PropsFacts.set_same key (VObj p) ps Hkey).
    by apply assign_same. }
  destruct (Js.is_string "optional" rule) eqn:Hopt; [|by destruct parameter].
  destruct parameter as [| | | | | |p]; try done. simpl.
  destruct (Happlied ps key rule p Hps Hrule Hkey) as [_ Hempty].
  rewrite Hps. simpl.
  rewrite (PropsFacts.set_same "Default" (VStr "") p
             (Hempty (is_string_eq _ _ Hopt))).
  rewrite (PropsFacts.set_same key (VObj p) ps Hkey).
  by apply assign_same.
Qed.

Lemma rewriteCode_noop this doc items resource :
  code_rewritten this doc →
  Js.prop "Resources" doc = VArr items →
  resource ∈ items →
  isFunction resource = true →
  rewriteCode this resource = resource.
Proof.
  intros Hdone Hitems Hin Hfn. unfold rewriteCode.
  destruct (Js.truthy (Js.prop "Properties" resource)) eqn:HP; [|done].
  destruct (Js.truthy (Js.prop "Code" (Js.prop "Properties" resource)))
    eqn:HC; [|done].
  destruct (Js.truthy (Js.prop "S3Bucket" (Js.prop "Properties" resource)))
    eqn:HB; [|done].
  simpl. case_match; [|done].
  destruct (Js.prop "Properties" resource) as [| | | | | |props] eqn:Hprops;
    try done.
  destruct (Hdone items resource props Hitems Hin Hfn Hprops HC HB)
    as [Hb Hk].
  simpl. rewrite (PropsFacts.set_same _ _ _ Hb).
  rewrite (PropsFacts.set_same _ _ _ Hk).
  by apply assign_same.
Qed.

Lemma rewriteFunctions_noop this st :
  code_rewritten this (document st) →
  (rewriteFunctions this st).2 = st.
Proof.
  intros Hdone.
  unfold rewriteFunctions, bind, templateData, member, throw, ret, mutate.
  destruct (Js.nullish (document st)); [done|]. simpl.
  destruct (Js.prop "Resources" (document st)) as [| | | | |items|] eqn:Hr;
    try done.
  destruct (existsb Js.nullish items); [done|]. simpl.
  assert (Hmap :
    (fun resource => if isFunction resource then rewriteCode this resource
                     else resource) <$> items = items).
  { rewrite <- (list_fmap_id items) at 2. apply list_fmap_ext.
    intros i resource Hi. destruct (isFunction resource) eqn:Hfn; [|done].
    apply (rewriteCode_noop this (document st) items); try done.
    by eapply list_elem_of_lookup_2. }
  rewrite Hmap, assign_same by done. apply store_eta.
Qed.

(** C8. On a template that shows the three marks of elaboration (the
    deployment bucket is gone, every rule shows on the parameter it names,
    every function resource with a code block carries the destination
    bucket and key), a run of [elaborateTemplate] that stays within the
    embedding leaves the template as it is: the removal finds nothing to
    remove, every rule finds its work done, and the rewritten bucket and key
    fields keep their values. *)
Theorem elaborateTemplate_again_changes_nothing
    (this : plugin) (doc : value) (lg : list string)
    (fs : list (string * string)) :
  bucket_removed doc →
  rules_applied (Js.entries (Js.prop "parameters" (shareConfig this))) doc →
  code_rewritten this doc →
  let run :=
    elaborateTemplate this {| document := doc; log := lg; files := fs |} in
  run.1 ≠ Unmodelled →
  document run.2 = doc.
Proof.
  intros Hgone Happlied Hdone. cbv zeta. intros _.
  unfold elaborateTemplate, bind.
  set (st := {| document := doc; log := lg; files := fs |}).
  pose proof (deleteDeploymentBucket_noop st Hgone) as H1.
  destruct (deleteDeploymentBucket st) as [[[]|e|] st1]; simpl in H1;
    subst st1; [|done..].
  set (rules := Js.entries _) in *.
  pose proof (for_each_invariant (fun st' => document st' = doc)
                (Props.keys rules) (loop_body rules)) as H2.
  specialize (H2 (fun key st' _ H =>
    eq_trans (loop_body_noop rules key st'
                (eq_ind_r (rules_applied rules) Happlied H)) H) st eq_refl).
  destruct (for_each _ _ st) as [[[]|e|] st2]; simpl in H2; [|done..].
  pose proof (rewriteFunctions_noop this st2) as H3.
  rewrite H2 in H3. specialize (H3 Hdone).
  destruct (rewriteFunctions this st2) as [[[]|e|] st3]; simpl in *;
    by subst st3.
Qed.

Lemma example_elaborated_bucket_removed : bucket_removed example_elaborated.
Proof. intros r Hr. discriminate Hr. Qed.

Lemma example_elaborated_rules_applied :
  rules_applied (Js.entries example_rules) example_elaborated.
Proof.
  intros ps key rule p Hps Hrule Hkey.
  injection Hps as <-. simpl in Hrule, Hkey.
  repeat case_decide; simplify_eq; by split.
Qed.

Lemma example_elaborated_code_rewritten :
  code_rewritten (example_plugin example_rules) example_elaborated.
Proof.
  intros items resource props Hitems Hin Hfn Hprops _ _.
  injection Hitems as <-.
  repeat (apply elem_of_cons in Hin as [->|Hin]);
    [discriminate Hfn| |by apply elem_of_nil in Hin].
  injection Hprops as <-. by split.
Qed.

Lemma elaborateTemplate_again_changes_nothing_witness :
  (elaborateTemplate (example_plugin example_rules)
     (start example_array_template)).1 = Returned example_elaborated
  ∧ document
      (elaborateTemplate (example_plugin example_rules)
         (start example_elaborated)).2 = example_elaborated.
Proof.
  split; [reflexivity|].
  apply (elaborateTemplate_again_changes_nothing
           (example_plugin example_rules) example_elaborated [] []
           example_elaborated_bucket_removed
           example_elaborated_rules_applied
           example_elaborated_code_rewritten).
  discriminate.
Defined.

(** ** init *)

(** What a returning [init] has assigned, read off lines 84 to 95. *)
Lemma init_returned h st this st' :
  init h st = (Returned this, st') →
  shareConfig this
  = VObj (spread [ ("bucket", VUndefined);
                   ("codeKey", VStr (sourceKey this));
                   ("templateKey", VStr "template.json");
                   ("stackName", VStr (service h));
                   ("parameters", VObj []) ]
            (Js.prop "share" (custom h)))
  ∧ destBucket this
    = Js.or (Js.prop "bucket" (options h))
        (Js.prop "bucket" (shareConfig this))
  ∧ destCodeKey this
    = Js.or (Js.prop "key" (options h)) (Js.prop "key" (shareConfig this))
  ∧ destTemplateKey this
    = Js.or (Js.prop "key" (options h)) (Js.prop "key" (shareConfig this))
  ∧ stackName this
    = Js.or (Js.prop "stackName" (options h))
        (Js.prop "stackName" (shareConfig this)).
Proof.
  unfold init, getLatestVersion, bind, request, member, cli_log, ret, throw.
  intros H. repeat case_match; simplify_eq. simpl. done.
Qed.

Lemma spread_get_other name (es : list (string * value)) : ∀ base,
  name ∉ Props.keys es →
  Props.get name (foldl (fun ps e => Props.set e.1 e.2 ps) base es)
  = Props.get name base.
Proof.
  unfold Props.keys.
  induction es as [|[k v] es IH]; intros base Hname; simpl; [done|].
  simpl in Hname. apply not_elem_of_cons in Hname as [Hne Hname].
  rewrite IH by done. by apply PropsFacts.get_set_ne.
Qed.

(** C5. The claim promises that the flags [codeKey], [templateKey] and
    [stack] override the configured keys and stack name.  [init] reads
    [options.key] and [shareConfig.key] for both keys and
    [options.stackName] for the stack name: with the documented flags and
    the documented configuration, which have no [key] and no [stackName],
    both destination keys are [undefined] and the stack name is the service
    name, whatever the flags and the configuration say.  Only [bucket] is
    read as documented. *)
Theorem init_reads_key_and_stackName
    (h : host) (st st' : store) (this : plugin) :
  init h st = (Returned this, st') →
  Js.prop "key" (options h) = VUndefined →
  Js.prop "stackName" (options h) = VUndefined →
  "key" ∉ Props.keys (Js.entries (Js.prop "share" (custom h))) →
  "stackName" ∉ Props.keys (Js.entries (Js.prop "share" (custom h))) →
  destCodeKey this = VUndefined
  ∧ destTemplateKey this = VUndefined
  ∧ stackName this = VStr (service h)
  ∧ destBucket this
    = Js.or (Js.prop "bucket" (options h))
        (Js.prop "bucket" (shareConfig this)).
Proof.
  intros Hinit Hkey Hstack Hcfg_key Hcfg_stack.
  destruct (init_returned h st this st' Hinit)
    as (Hcfg & Hb & Hc & Ht & Hs).
  rewrite Hc, Ht, Hs, Hkey, Hstack, Hcfg. simpl.
  unfold spread. rewrite !spread_get_other by done. simpl.
  split; [done|]. split; [done|]. split; [done|].
  by rewrite Hb, Hcfg.
Qed.

Lemma example_init :
  init (example_host listed_ascending (Returned ())) (start VUndefined)
  = (Returned example_this, example_started).
Proof. vm_compute. reflexivity. Qed.

Lemma not_elem_of_keys name (es : list (string * value)) :
  Props.get name es = None → name ∉ Props.keys es.
Proof.
  intros Hnone Hin. apply PropsFacts.keys_get in Hin as [v Hv]. congruence.
Qed.

Lemma init_reads_key_and_stackName_witness :
  Js.prop "codeKey" example_options = VStr "my-vendor/my-version/code.zip"
  ∧ Js.prop "templateKey" example_options
    = VStr "my-vendor/my-version/template.json"
  ∧ Js.prop "stack" example_options = VStr "my-deployed-service"
  ∧ destCodeKey example_this = VUndefined
  ∧ destTemplateKey example_this = VUndefined
  ∧ stackName example_this = VStr "svc".
Proof.
  do 3 (split; [reflexivity|]).
  destruct (init_reads_key_and_stackName
              (example_host listed_ascending (Returned ()))
              (start VUndefined) example_started example_this
              example_init eq_refl eq_refl)
    as (Hc & Ht & Hs & _);
    [by apply not_elem_of_keys..|].
  repeat split; assumption.
Defined.

(** C10. After an [init] that returns, the destination key of the code
    archive and the destination key of the template are one value: lines
    93 and 94 compute both from [options.key] and [shareConfig.key].  So
    the [putObject] of [saveTemplate] and the [upload] of [uploadCode]
    carry the same [Key]. *)
Theorem init_destination_keys_equal
    (h : host) (st st' : store) (this : plugin) :
  init h st = (Returned this, st') →
  destCodeKey this = destTemplateKey this
  ∧ ∀ doc srcPath,
      Key (saveTemplate_request this doc)
      = Key (uploadCode_request this srcPath).
Proof.
  intros Hinit.
  destruct (init_returned h st this st' Hinit) as (_ & _ & Hc & Ht & _).
  assert (Heq : destCodeKey this = destTemplateKey this) by congruence.
  split; [exact Heq|]. intros doc srcPath. simpl. by symmetry.
Qed.

Lemma init_destination_keys_equal_witness :
  destCodeKey example_this = destTemplateKey example_this
  ∧ Key (saveTemplate_request example_this example_template)
    = Key (uploadCode_request example_this tmpPath).
Proof.
  destruct (init_destination_keys_equal
              (example_host listed_ascending (Returned ()))
              (start VUndefined) example_started example_this example_init)
    as [Heq Hkey].
  split; [exact Heq|apply Hkey].
Defined.

(** ** getLatestVersion *)

(** [sort] without a comparison function orders by ToString, which is
    [\[object Object\]] on every item of the listing: nothing moves. *)
Lemma sort_common_prefixes (items : list common_prefix) :
  Js.sort common_prefix_image items = items.
Proof.
  induction items as [|x items IH]; [done|].
  unfold Js.sort in *. simpl. rewrite IH. by destruct items.
Qed.

(** C6. [getLatestVersion] throws [Version not found] on an empty listing,
    as the claim says.  On a listing that is not empty it returns the prefix
    listed last, in whatever order the listing comes: the claim's greatest
    prefix only when the listing ascends. *)
Theorem getLatestVersion_returns_last_listed
    (h : host) (bucket path : string) (st : store) :
  Js.nullish (options h) = false →
  (listObjectsV2 h bucket path = Returned [] →
   getLatestVersion h bucket path st
   = (Threw (Error "Version not found"), st))
  ∧ (∀ (listed : list common_prefix) (last : common_prefix),
       listObjectsV2 h bucket path = Returned (listed ++ [last])%list →
       getLatestVersion h bucket path st = (Returned (Prefix last), st)).
Proof.
  intros Hopts.
  unfold getLatestVersion, bind, member, request, ret, throw.
  rewrite Hopts. split.
  - by intros ->.
  - intros listed last ->.
    by rewrite sort_common_prefixes, reverse_snoc.
Qed.

Lemma getLatestVersion_returns_last_listed_witness :
  getLatestVersion (example_host listed_descending (Returned ()))
    "deployment" "serverless/svc/dev/" (start VUndefined)
  = (Returned "serverless/svc/dev/1700000000000-2023-11-14T22:13:20.000Z/",
     start VUndefined)
  ∧ String.ltb "serverless/svc/dev/1700000000000-2023-11-14T22:13:20.000Z/"
      "serverless/svc/dev/1800000000000-2027-01-15T08:00:00.000Z/" = true.
Proof.
  split; [|reflexivity].
  exact (proj2 (getLatestVersion_returns_last_listed
                  (example_host listed_descending (Returned ()))
                  "deployment" "serverless/svc/dev/" (start VUndefined)
                  eq_refl)
           [ {| Prefix :=
                  "serverless/svc/dev/1800000000000-2027-01-15T08:00:00.000Z/" |} ]
           {| Prefix :=
                "serverless/svc/dev/1700000000000-2023-11-14T22:13:20.000Z/" |}
           eq_refl).
Defined.

(** ** end *)

Lemma print_string s st : print (VStr s) st = (Returned s, st).
Proof. done. Qed.

(** C7. The claim promises the link of README.md.  For every stack name,
    bucket, region and template key, [end] logs one link, and it is not the
    promised one: [templateURL] follows the stack name without [&], and the
    link ends in [undefined], the print of [this.templateKey], a field that
    [init] never assigns (it assigns [destTemplateKey]). *)
Theorem end_prints_another_link
    (h : host) (this : plugin) (st : store)
    (stack bucket region : string) :
  Js.nullish (options h) = false →
  stackName this = VStr stack →
  destBucket this = VStr bucket →
  getBucketLocation h (VStr bucket) = Returned region →
  end_ h this st
  = (Returned (),
     {| document := document st;
        log := (log st
               ++ [ "Version " +:+ latestVersion this +:+ " deployed!";
                    "Share link: "
                    +:+ shareLink stack region bucket "undefined" ])%list;
        files := files st |})
  ∧ ∀ key,
      shareLink stack region bucket "undefined"
      ≠ documented_link stack region bucket key.
Proof.
  intros Hopts Hstack Hbucket Hregion. split.
  - unfold end_, getDestinationBucketRegion, bind, member, request, cli_log,
      ret, templateKey.
    rewrite Hstack, Hbucket, Hopts, !print_string, Hregion. simpl.
    by rewrite <- app_assoc.
  - intros key Heq. unfold shareLink, documented_link in Heq.
    simpl in Heq. simplify_eq.
    apply (inj (String.app stack)) in Heq. discriminate Heq.
Qed.

Lemma end_prints_another_link_witness :
  (end_ (example_host listed_ascending (Returned ())) example_this
     example_started).1 = Returned ()
  ∧ last (log (end_ (example_host listed_ascending (Returned ()))
                 example_this example_started).2)
    = Some ("Share link: https://console.aws.amazon.com/cloudformation/"
            +:+ "home#/stacks/new?stackName=svctemplateURL=https://"
            +:+ "s3-eu-west-1.amazonaws.com/my-service-template-bucket/"
            +:+ "undefined").
Proof.
  destruct (end_prints_another_link
              (example_host listed_ascending (Returned ())) example_this
              example_started "svc" "my-service-template-bucket"
              "s3-eu-west-1" eq_refl eq_refl eq_refl eq_refl) as [-> _].
  split; reflexivity.
Defined.

(** ** code *)

(** C9, as amended.  When the download answers with the archive, [code]
    writes it to [/tmp/code.zip]; if the upload then completes, the file is
    removed and the stage returns; if the upload is rejected, the stage
    ends with that rejection at line 122 and the file, holding the
    archive, is still there: line 123 is not reached and nothing else
    removes the file. *)
Theorem code_removes_file_after_upload
    (h : host) (this : plugin) (st : store) (archive : string) :
  Js.nullish (options h) = false →
  getObject h (deploymentBucket this) (sourceKey this) = Returned archive →
  (upload h (uploadCode_request this tmpPath) = Returned () →
   (code h this st).1 = Returned ()
   ∧ Props.get tmpPath (files (code h this st).2) = None)
  ∧ (∀ e, upload h (uploadCode_request this tmpPath) = Threw e →
       (code h this st).1 = Threw e
       ∧ Props.get tmpPath (files (code h this st).2) = Some archive).
Proof.
  intros Hopts Hget.
  unfold code, downloadCode, uploadCode, bind, member, request,
    writeFileSync, unlinkSync, ret.
  rewrite Hopts, Hget. simpl. split.
  - intros ->. rewrite PropsFacts.get_set_eq. simpl.
    split; [done|]. apply PropsFacts.get_remove_eq.
  - intros e ->. simpl. split; [done|]. apply PropsFacts.get_set_eq.
Qed.

Lemma code_removes_file_after_upload_witness :
  (code (example_host listed_ascending (Returned ())) example_this
     example_started).1 = Returned ()
  ∧ Props.get tmpPath
      (files (code (example_host listed_ascending (Returned ()))
                example_this example_started).2) = None.
Proof.
  exact (proj1 (code_removes_file_after_upload
                  (example_host listed_ascending (Returned ()))
                  example_this example_started "PK-archive"
                  eq_refl eq_refl) eq_refl).
Defined.

(** C9 as the claim states it fails when the upload is rejected: the stage
    ends with the rejection and [/tmp/code.zip] remains on disk. *)
Lemma code_upload_rejected_file_remains :
  let run :=
    code (example_host listed_ascending (Threw (Rejected "AccessDenied")))
      example_this example_started in
  run.1 = Threw (Rejected "AccessDenied")
  ∧ Props.get tmpPath (files example_started) = None
  ∧ Props.get tmpPath (files run.2) = Some "PK-archive".
Proof. cbv zeta. repeat split. Qed.

(** * More of the plugin *)

(** ** elaborateTemplate: where it throws *)

(** X1. Without [Resources] (the template is not an object, or has no
    [Resources], or [Resources] is [null]) the call throws at line 181
    before anything is changed or logged. *)
Theorem elaborateTemplate_without_Resources (this : plugin) (st : store) :
  Js.nullish (Js.prop "Resources" (document st)) = true →
  elaborateTemplate this st = (Threw (TypeError 181), st).
Proof.
  intros Hres.
  unfold elaborateTemplate, deleteDeploymentBucket, bind, templateData,
    member, throw, ret.
  destruct (document st) as [| | | | | |d]; try done.
  simpl in *. by destruct (default VUndefined (Props.get "Resources" d)).
Qed.

Lemma elaborateTemplate_without_Resources_witness :
  elaborateTemplate (example_plugin example_rules)
    (start (VObj [("Parameters", example_parameters)]))
  = (Threw (TypeError 181),
     start (VObj [("Parameters", example_parameters)])).
Proof.
  exact (elaborateTemplate_without_Resources (example_plugin example_rules)
           (start (VObj [("Parameters", example_parameters)])) eq_refl).
Defined.

Lemma deleteDeploymentBucket_returns st :
  Js.nullish (Js.prop "Resources" (document st)) = false →
  ∃ st1, deleteDeploymentBucket st = (Returned (), st1)
    ∧ Js.prop "Parameters" (document st1) = Js.prop "Parameters" (document st)
    ∧ Js.nullish (Js.prop "Resources" (document st1)) = false
    ∧ log st1 = log st ∧ files st1 = files st.
Proof.
  intros Hres.
  unfold deleteDeploymentBucket, bind, templateData, member, throw, ret,
    mutate.
  destruct (document st) as [| | | | | |d] eqn:Hdoc; try done. simpl in *.
  destruct (default VUndefined (Props.get "Resources" d))
    as [| | | | | |r] eqn:Hr; try done;
    try (eexists; split; [reflexivity|]; by rewrite Hdoc; simpl; rewrite ?Hr).
  eexists. split; [reflexivity|]. simpl. rewrite Hdoc. simpl.
  rewrite PropsFacts.get_set_ne by done.
  by rewrite PropsFacts.get_set_eq.
Qed.

(** X2. With [Resources] but without [Parameters], a rule mapping that is
    not empty makes the call throw at line 184, on the first rule: nothing
    is logged, and the template is what line 181 left. *)
Theorem elaborateTemplate_without_Parameters (this : plugin) (st : store) :
  Js.nullish (Js.prop "Resources" (document st)) = false →
  Js.nullish (Js.prop "Parameters" (document st)) = true →
  Js.entries (Js.prop "parameters" (shareConfig this)) ≠ [] →
  elaborateTemplate this st
  = (Threw (TypeError 184), (deleteDeploymentBucket st).2).
Proof.
  intros Hres Hpar Hrules.
  destruct (deleteDeploymentBucket_returns st Hres)
    as (st1 & Hrun & HP & _ & _ & _).
  unfold elaborateTemplate, bind. rewrite Hrun. simpl.
  destruct (Js.entries _) as [|[key rule] rules]; [done|]. simpl.
  unfold bind, loop_body, bind, templateData, member, throw, ret.
  rewrite <- HP in Hpar.
  destruct (Js.nullish (document st1)); [done|]. simpl.
  by destruct (Js.prop "Parameters" (document st1)).
Qed.

Lemma elaborateTemplate_without_Parameters_witness :
  elaborateTemplate (example_plugin example_rules)
    (start (VObj [("Resources", VObj example_resource_list)]))
  = (Threw (TypeError 184),
     start (VObj [("Resources", VObj [("Fn", example_function)])])).
Proof.
  exact (elaborateTemplate_without_Parameters (example_plugin example_rules)
           (start (VObj [("Resources", VObj example_resource_list)]))
           eq_refl eq_refl ltac:(discriminate)).
Defined.

(** X3. When [Resources] is an array that holds [null], [filter] throws at
    line 198 on reading [Type] of that item: the call never returns and no
    item of the array is rewritten, whatever stands before or after the
    [null]. *)
Theorem elaborateTemplate_null_resource
    (this : plugin) (st : store) (items : list value) :
  Js.prop "Resources" (document st) = VArr items →
  existsb Js.nullish items = true →
  (∀ v, (elaborateTemplate this st).1 ≠ Returned v)
  ∧ Js.prop "Resources" (document (elaborateTemplate this st).2) = VArr items.
Proof.
  intros Hres Hnull.
  destruct (deleteDeploymentBucket_returns st) as (st1 & Hrun & _);
    [by rewrite Hres|].
  assert (Hst1 : Js.prop "Resources" (document st1) = VArr items).
  { revert Hrun.
    unfold deleteDeploymentBucket, bind, templateData, member, throw, ret.
    destruct (Js.nullish (document st)); [done|]. simpl. rewrite Hres.
    by intros [= <-]. }
  unfold elaborateTemplate, bind. rewrite Hrun.
  set (rules := Js.entries _).
  pose proof (loop_Resources rules (Props.keys rules) st1) as Hloop.
  rewrite Hst1 in Hloop.
  destruct (for_each _ _ st1) as [[[]|e|] st2]; simpl in *; [|by split..].
  unfold rewriteFunctions, bind, templateData, member, throw, ret.
  destruct (document st2) eqn:Hdoc; try done. simpl in *.
  rewrite Hloop, Hnull. simpl. by rewrite Hdoc.
Qed.

Lemma elaborateTemplate_null_resource_witness :
  Js.prop "Resources"
    (document
       (elaborateTemplate (example_plugin (VObj []))
          (start (VObj [("Resources", VArr [example_function; VNull])]))).2)
  = VArr [example_function; VNull].
Proof.
  exact (proj2 (elaborateTemplate_null_resource (example_plugin (VObj []))
                  (start (VObj [("Resources",
                                 VArr [example_function; VNull])]))
                  [example_function; VNull] eq_refl eq_refl)).
Defined.

(** ** elaborateTemplate: on an array of resources *)

Lemma rewriteCode_other this resource :
  pointsAtDeploymentBucket resource = false →
  rewriteCode this resource = resource.
Proof.
  unfold rewriteCode, pointsAtDeploymentBucket. by intros ->.
Qed.

(** What the callback of line 199 makes of a resource that passes the test
    of lines 201 to 204. *)
Lemma rewriteCode_fields this resource :
  pointsAtDeploymentBucket resource = true →
  Js.prop "S3Bucket" (Js.prop "Properties" (rewriteCode this resource))
  = destBucket this
  ∧ Js.prop "S3Key" (Js.prop "Properties" (rewriteCode this resource))
    = destCodeKey this
  ∧ (∀ name, name ≠ "S3Bucket" → name ≠ "S3Key" →
       Js.prop name (Js.prop "Properties" (rewriteCode this resource))
       = Js.prop name (Js.prop "Properties" resource))
  ∧ (∀ name, name ≠ "Properties" →
       Js.prop name (rewriteCode this resource) = Js.prop name resource).
Proof.
  intros Hpoints. unfold rewriteCode.
  change (_ && _ && _ && _) with (pointsAtDeploymentBucket resource).
  rewrite Hpoints. unfold pointsAtDeploymentBucket in Hpoints.
  apply andb_prop in Hpoints as [Hpoints _].
  apply andb_prop in Hpoints as [Hpoints _].
  apply andb_prop in Hpoints as [_ Hcode].
  destruct resource as [| | | | | |fields]; try done. simpl in *.
  destruct (default VUndefined (Props.get "Properties" fields))
    as [| | | | | |props] eqn:Hprops; try done.
  simpl. rewrite !PropsFacts.get_set_eq. simpl.
  rewrite PropsFacts.get_set_eq.
  rewrite PropsFacts.get_set_ne, PropsFacts.get_set_eq by done.
  split; [done|]. split; [done|]. split.
  - intros name Hb Hk. by rewrite !PropsFacts.get_set_ne.
  - intros name Hne. by rewrite PropsFacts.get_set_ne.
Qed.

Lemma rewriteFunctions_array this st items :
  Js.prop "Resources" (document st) = VArr items →
  rewriteFunctions this st
  = if existsb Js.nullish items then (Threw (TypeError 198), st)
    else (Returned (),
          {| document :=
               assign "Resources" (VArr (rewritten this <$> items))
                 (document st);
             log := log st; files := files st |}).
Proof.
  intros Hres.
  unfold rewriteFunctions, bind, templateData, member, throw, ret, mutate.
  destruct (document st) eqn:Hdoc; try done. simpl in *. rewrite Hres.
  destruct (existsb Js.nullish items); simpl; rewrite ?Hdoc; reflexivity.
Qed.

Lemma deleteDeploymentBucket_array st items :
  Js.prop "Resources" (document st) = VArr items →
  deleteDeploymentBucket st = (Returned (), st).
Proof.
  intros Hres.
  unfold deleteDeploymentBucket, bind, templateData, member, throw, ret.
  destruct (document st) eqn:Hdoc; try done. simpl in *. by rewrite Hres.
Qed.

(** X4. When [Resources] is an array and the call returns, it returns the
    template it mutated, whose [Resources] is an array of the same length in
    which, item by item: a resource of type [AWS::Lambda::Function] that
    passes the test of lines 201 to 204 has its [S3Bucket] and [S3Key]
    properties set to the destination bucket and key and everything else as
    before; every other resource is what it was. *)
Theorem elaborateTemplate_rewrites_array
    (this : plugin) (st : store) (items : list value) (doc' : value) :
  Js.prop "Resources" (document st) = VArr items →
  (elaborateTemplate this st).1 = Returned doc' →
  doc' = document (elaborateTemplate this st).2
  ∧ ∃ items',
      Js.prop "Resources" doc' = VArr items'
      ∧ length items' = length items
      ∧ ∀ i resource, items !! i = Some resource →
          ∃ resource', items' !! i = Some resource' ∧
            if isFunction resource && pointsAtDeploymentBucket resource
            then
              Js.prop "S3Bucket" (Js.prop "Properties" resource')
              = destBucket this
              ∧ Js.prop "S3Key" (Js.prop "Properties" resource')
                = destCodeKey this
              ∧ (∀ name, name ≠ "S3Bucket" → name ≠ "S3Key" →
                   Js.prop name (Js.prop "Properties" resource')
                   = Js.prop name (Js.prop "Properties" resource))
              ∧ (∀ name, name ≠ "Properties" →
                   Js.prop name resource' = Js.prop name resource)
            else resource' = resource.
Proof.
  intros Hres. unfold elaborateTemplate, bind.
  rewrite (deleteDeploymentBucket_array st items Hres).
  set (rules := Js.entries _).
  pose proof (loop_Resources rules (Props.keys rules) st) as Hloop.
  rewrite Hres in Hloop.
  destruct (for_each _ _ st) as [[[]|e|] st2]; simpl in *; try done.
  rewrite (rewriteFunctions_array this st2 items Hloop).
  destruct (existsb Js.nullish items); [done|].
  unfold templateData. simpl. intros [= <-]. split; [done|].
  exists (rewritten this <$> items).
  destruct (document st2) as [| | | | | |d] eqn:Hdoc; try done.
  split; [apply prop_assign_eq|]. split; [apply length_fmap|].
  intros i resource Hi. exists (rewritten this resource).
  split; [by rewrite list_lookup_fmap, Hi|].
  unfold rewritten.
  destruct (isFunction resource); simpl; [|done].
  destruct (pointsAtDeploymentBucket resource) eqn:Hpoints.
  - by apply rewriteCode_fields.
  - by apply rewriteCode_other.
Qed.

Lemma elaborateTemplate_rewrites_array_witness :
  ∃ items',
    Js.prop "Resources" example_elaborated = VArr items'
    ∧ length items' = 2
    ∧ items' !! 0 = Some (VObj [("Type", VStr "AWS::S3::Bucket")])
    ∧ ∃ resource', items' !! 1 = Some resource'
        ∧ Js.prop "S3Bucket" (Js.prop "Properties" resource') = VStr "pub"
        ∧ Js.prop "S3Key" (Js.prop "Properties" resource')
          = VStr "v1/code.zip".
Proof.
  destruct (elaborateTemplate_rewrites_array (example_plugin example_rules)
              (start example_array_template)
              [VObj [("Type", VStr "AWS::S3::Bucket")]; example_function]
              example_elaborated eq_refl eq_refl)
    as (_ & items' & Hres & Hlen & Hitems).
  exists items'. split; [exact Hres|]. split; [exact Hlen|].
  destruct (Hitems 0 _ eq_refl) as (r0 & H0 & E0). simpl in E0. subst r0.
  destruct (Hitems 1 _ eq_refl) as (r1 & H1 & Hb & Hk & _).
  split; [exact H0|]. by exists r1.
Defined.



(** ** elaborateTemplate: what it leaves alone *)

Lemma keys_set_present {A} k (a b : A) ps :
  Props.get k ps = Some b → Props.keys (Props.set k a ps) = Props.keys ps.
Proof.
  unfold Props.keys. induction ps as [|[k' a'] ps IH]; simpl; [done|].
  destruct (decide (k = k')) as [->|Hne]; simpl; [done|].
  intros H. f_equal. by apply IH.
Qed.

Lemma deleteDeploymentBucket_keeps st :
  Js.prop "Parameters" (document (deleteDeploymentBucket st).2)
  = Js.prop "Parameters" (document st)
  ∧ log (deleteDeploymentBucket st).2 = log st
  ∧ files (deleteDeploymentBucket st).2 = files st.
Proof.
  unfold deleteDeploymentBucket, bind, templateData, member, throw, ret,
    mutate.
  repeat case_match; simplify_eq; simpl; try done.
  split; [|done]. by rewrite prop_assign_ne.
Qed.

Lemma rewriteFunctions_files this st :
  files (rewriteFunctions this st).2 = files st.
Proof.
  unfold rewriteFunctions, bind, templateData, member, throw, ret, mutate.
  by repeat case_match; simplify_eq.
Qed.

Lemma parameters_kept_refl ps : parameters_kept ps ps.
Proof.
  split; [done|]. intros name v Hv. exists v. split; [done|].
  by destruct v.
Qed.

Lemma loop_body_keeps_parameters rules key ps st :
  (∃ ps1, Js.prop "Parameters" (document st) = VObj ps1
          ∧ parameters_kept ps ps1) →
  ∃ ps2, Js.prop "Parameters" (document (loop_body rules key st).2) = VObj ps2
         ∧ parameters_kept ps ps2.
Proof.
  intros (ps1 & Hps1 & Hkeys & Hkept).
  assert (Hstep : ∀ p1 p2,
    Props.get key ps1 = Some (VObj p1) →
    (∀ name, name ≠ "Default" → Props.get name p2 = Props.get name p1) →
    ∃ ps2,
      Js.prop "Parameters"
        (assign "Parameters" (assign key (VObj p2) (VObj ps1)) (document st))
      = VObj ps2 ∧ parameters_kept ps ps2).
  { intros p1 p2 Hp1 Hp2. exists (Props.set key (VObj p2) ps1). split.
    - destruct (document st); try done.
      apply (prop_assign_eq "Parameters" (VObj (Props.set key (VObj p2) ps1))).
    - split.
      + by rewrite (keys_set_present _ _ _ _ Hp1).
      + intros name v Hv. destruct (Hkept name v Hv) as (v1 & Hv1 & Hsame).
        destruct (decide (key = name)) as [->|Hne].
        * rewrite PropsFacts.get_set_eq. eexists. split; [done|].
          rewrite Hp1 in Hv1. injection Hv1 as <-.
          destruct v; try done. simpl in *.
          intros n Hn. by rewrite Hp2, Hsame.
        * rewrite PropsFacts.get_set_ne by done. by exists v1. }
  unfold loop_body, bind, templateData, member, throw, ret, unmodelled.
  destruct (Js.nullish (document st)); [by exists ps1|]. simpl.
  rewrite Hps1. unfold Js.find.
  destruct (Props.get key ps1) as [parameter|] eqn:Hkey;
    [|destruct (Js.inherited key); unfold applyRule_builtin, cli_log, ret,
        unmodelled; repeat case_match; by exists ps1].
  unfold applyRule, store_parameter, mutate, cli_log, throw, ret, unmodelled.
  destruct parameter as [| | | | | |p]; repeat case_match; simpl;
    try (by exists ps1); rewrite Hps1.
  - apply (Hstep p); [done|].
    intros name Hne. by rewrite PropsFacts.get_remove_ne.
  - apply (Hstep p); [done|].
    intros name Hne. by rewrite PropsFacts.get_set_ne.
Qed.

(** X6. Whatever the rules, in a call that returns or throws (a run the
    embedding follows to its end) the parameters of the template keep their
    names and their order: no parameter is added or removed, a parameter
    object keeps every field but [Default], and a parameter that is not an
    object is not touched. *)
Theorem elaborateTemplate_keeps_parameters
    (this : plugin) (st : store) (ps : list (string * value)) :
  Js.prop "Parameters" (document st) = VObj ps →
  (elaborateTemplate this st).1 ≠ Unmodelled →
  ∃ ps',
    Js.prop "Parameters" (document (elaborateTemplate this st).2) = VObj ps'
    ∧ Props.keys ps' = Props.keys ps
    ∧ ∀ name v, Props.get name ps = Some v →
        ∃ v', Props.get name ps' = Some v' ∧ same_but_Default v v'.
Proof.
  intros Hps _.
  set (I := fun st' : store =>
    ∃ ps1, Js.prop "Parameters" (document st') = VObj ps1
           ∧ parameters_kept ps ps1).
  assert (H0 : I st) by (exists ps; split; [done|apply parameters_kept_refl]).
  assert (H1 : I (deleteDeploymentBucket st).2).
  { destruct (deleteDeploymentBucket_keeps st) as (HP & _).
    unfold I. by rewrite HP. }
  enough (I (elaborateTemplate this st).2) as (ps' & HP & Hk & Hv)
    by (by exists ps').
  unfold elaborateTemplate, bind.
  destruct (deleteDeploymentBucket st) as [[[]|e|] st1]; simpl in H1;
    [|done..].
  set (rules := Js.entries _).
  pose proof (for_each_invariant I (Props.keys rules) (loop_body rules)
                (fun key st' _ => loop_body_keeps_parameters rules key ps st')
                st1 H1) as H2.
  destruct (for_each _ _ st1) as [[[]|e|] st2]; simpl in H2; [|done..].
  destruct (rewriteFunctions_keeps this st2) as [HP _].
  destruct (rewriteFunctions this st2) as [[[]|e|] st3]; simpl in *;
    unfold I; by rewrite HP.
Qed.

Lemma elaborateTemplate_keeps_parameters_witness :
  ∃ ps',
    Js.prop "Parameters"
      (document (elaborateTemplate (example_plugin example_rules)
                   (start example_template)).2) = VObj ps'
    ∧ Props.keys ps' = ["P1"; "P2"].
Proof.
  destruct (elaborateTemplate_keeps_parameters (example_plugin example_rules)
              (start example_template) example_parameter_list eq_refl)
    as (ps' & HP & Hk & _); [discriminate|].
  by exists ps'.
Defined.

Lemma warnings_since_refl keys lg : warnings_since keys lg lg.
Proof.
  exists []. rewrite app_nil_r. split; [done|].
  intros line Hin. by apply elem_of_nil in Hin.
Qed.

Lemma loop_body_logs rules keys key lg st :
  key ∈ keys →
  warnings_since keys lg (log st) →
  warnings_since keys lg (log (loop_body rules key st).2)
  ∧ files (loop_body rules key st).2 = files st.
Proof.
  intros Hkey (added & Hlog & Hadded).
  assert (Hwarn :
    warnings_since keys lg (log st ++ [rule_warning key])%list).
  { exists (added ++ [rule_warning key])%list.
    rewrite Hlog, <- app_assoc. split; [done|].
    intros line [Hin|Hin]%elem_of_app; [by apply Hadded|].
    apply list_elem_of_singleton in Hin as ->. by exists key. }
  assert (Hsame : warnings_since keys lg (log st)) by (by exists added).
  unfold loop_body, bind, templateData, member, throw, ret, unmodelled,
    applyRule, applyRule_builtin, store_parameter, mutate, cli_log, throw,
    ret, unmodelled.
  repeat case_match; simplify_eq; simpl; by split.
Qed.

Lemma elaborateTemplate_log_files this st :
  files (elaborateTemplate this st).2 = files st
  ∧ warnings_since
      (Props.keys (Js.entries (Js.prop "parameters" (shareConfig this))))
      (log st) (log (elaborateTemplate this st).2).
Proof.
  set (rules := Js.entries _).
  set (I := fun st' : store =>
    warnings_since (Props.keys rules) (log st) (log st')
    ∧ files st' = files st).
  enough (I (elaborateTemplate this st).2) as [Hl Hf] by done.
  assert (H1 : I (deleteDeploymentBucket st).2).
  { destruct (deleteDeploymentBucket_keeps st) as (_ & Hl & Hf).
    split; [|done]. rewrite Hl. apply warnings_since_refl. }
  unfold elaborateTemplate, bind. fold rules.
  destruct (deleteDeploymentBucket st) as [[[]|e|] st1]; simpl in H1;
    [|done..].
  assert (H2 : I (for_each (Props.keys rules) (loop_body rules) st1).2).
  { apply for_each_invariant; [|done].
    intros key st' Hkey [Hl Hf].
    destruct (loop_body_logs rules (Props.keys rules) key (log st) st'
                Hkey Hl) as [Hl' Hf'].
    split; [done|congruence]. }
  destruct (for_each _ _ st1) as [[[]|e|] st2]; simpl in H2; [|done..].
  destruct (rewriteFunctions_keeps this st2) as [_ Hl].
  pose proof (rewriteFunctions_files this st2) as Hf.
  destruct H2 as [H2l H2f].
  destruct (rewriteFunctions this st2) as [[[]|e|] st3]; simpl in *;
    (split; [by rewrite Hl|congruence]).
Qed.

(** X7. The call writes no file and keeps what was logged before it; the
    lines it adds to the log are warnings of line 186, each for a key of the
    rule mapping, and nothing else. *)
Theorem elaborateTemplate_logs_warnings_only (this : plugin) (st : store) :
  files (elaborateTemplate this st).2 = files st
  ∧ ∃ added : list string,
      log (elaborateTemplate this st).2 = (log st ++ added)%list
      ∧ ∀ line, line ∈ added →
          ∃ key,
            key ∈ Props.keys
                    (Js.entries (Js.prop "parameters" (shareConfig this)))
            ∧ line = rule_warning key.
Proof.
  destruct (elaborateTemplate_log_files this st) as [Hf (added & Hl & Ha)].
  split; [done|]. by exists added.
Qed.

(** ** elaborateTemplate: a second call *)

Lemma isFunction_rewriteCode this resource :
  isFunction (rewriteCode this resource) = isFunction resource.
Proof.
  unfold isFunction.
  destruct (pointsAtDeploymentBucket resource) eqn:Hpoints.
  - destruct (rewriteCode_fields this resource Hpoints) as (_ & _ & _ & Hk).
    by rewrite (Hk "Type").
  - by rewrite rewriteCode_other.
Qed.

Lemma pointsAtDeploymentBucket_object resource :
  pointsAtDeploymentBucket resource = true →
  ∃ fields props,
    resource = VObj fields
    ∧ Props.get "Properties" fields = Some (VObj props).
Proof.
  unfold pointsAtDeploymentBucket. intros Hpoints.
  apply andb_prop in Hpoints as [Hpoints _].
  apply andb_prop in Hpoints as [Hpoints _].
  apply andb_prop in Hpoints as [_ Hcode].
  destruct resource as [| | | | | |fields]; try done. simpl in *.
  destruct (Props.get "Properties" fields) as [[| | | | | |props]|] eqn:Hp;
    try done.
  by exists fields, props.
Qed.

Lemma rewriteCode_points this fields props :
  Props.get "Properties" fields = Some (VObj props) →
  pointsAtDeploymentBucket (VObj fields) = true →
  rewriteCode this (VObj fields)
  = VObj (Props.set "Properties"
            (VObj (Props.set "S3Key" (destCodeKey this)
                     (Props.set "S3Bucket" (destBucket this) props)))
            fields).
Proof.
  intros Hprops Hpoints. unfold rewriteCode.
  change (_ && _ && _ && _) with (pointsAtDeploymentBucket (VObj fields)).
  rewrite Hpoints. simpl. by rewrite Hprops.
Qed.

Lemma rewriteCode_idempotent this resource :
  rewriteCode this (rewriteCode this resource) = rewriteCode this resource.
Proof.
  destruct (pointsAtDeploymentBucket resource) eqn:Hpoints;
    [|by rewrite !(rewriteCode_other _ _ Hpoints)].
  destruct (pointsAtDeploymentBucket (rewriteCode this resource)) eqn:Hagain;
    [|by rewrite (rewriteCode_other _ _ Hagain)].
  destruct (pointsAtDeploymentBucket_object _ Hpoints)
    as (fields & props & -> & Hprops).
  rewrite (rewriteCode_points this fields props Hprops Hpoints) in *.
  rewrite (rewriteCode_points this _ _ (PropsFacts.get_set_eq _ _ _) Hagain).
  rewrite (PropsFacts.set_same "S3Bucket" (destBucket this))
    by (by rewrite PropsFacts.get_set_ne, PropsFacts.get_set_eq).
  rewrite (PropsFacts.set_same "S3Key" (destCodeKey this))
    by apply PropsFacts.get_set_eq.
  by rewrite PropsFacts.set_set.
Qed.

Lemma rewritten_idempotent this resource :
  rewritten this (rewritten this resource) = rewritten this resource.
Proof.
  unfold rewritten. destruct (isFunction resource) eqn:Hfn.
  - by rewrite isFunction_rewriteCode, Hfn, rewriteCode_idempotent.
  - by rewrite Hfn.
Qed.

Lemma rewritten_nullish this resource :
  Js.nullish (rewritten this resource) = Js.nullish resource.
Proof.
  unfold rewritten, rewriteCode.
  repeat case_match; try done; by destruct resource.
Qed.

Lemma rewriteFunctions_not_array this st :
  (∀ items, Js.prop "Resources" (document st) ≠ VArr items) →
  rewriteFunctions this st = (Threw (TypeError 197), st).
Proof.
  intros Hres.
  unfold rewriteFunctions, bind, templateData, member, throw, ret.
  destruct (document st) as [| | | | | |d]; try done. simpl in *.
  destruct (default VUndefined (Props.get "Resources" d)) as [| | | | |items|];
    try done.
  by destruct (Hres items).
Qed.

(** [rewriteFunctions] on the template it left ends as before and leaves the
    template as it is. *)
Lemma rewriteFunctions_again this st st2 :
  document st2 = document (rewriteFunctions this st).2 →
  (rewriteFunctions this st2).1 = (rewriteFunctions this st).1
  ∧ document (rewriteFunctions this st2).2 = document st2.
Proof.
  destruct (Js.prop "Resources" (document st)) as [| | | | |items|] eqn:Hres.
  6:{ rewrite (rewriteFunctions_array this st items Hres).
      destruct (existsb Js.nullish items) eqn:Hnull; simpl; intros Hdoc.
      - rewrite (rewriteFunctions_array this st2 items) by (by rewrite Hdoc).
        by rewrite Hnull.
      - assert (Hres2 : Js.prop "Resources" (document st2)
                        = VArr (rewritten this <$> items)).
        { rewrite Hdoc. destruct (document st); try done.
          apply prop_assign_eq. }
        rewrite (rewriteFunctions_array this st2 _ Hres2).
        assert (existsb Js.nullish (rewritten this <$> items) = false)
          as ->.
        { rewrite <- Hnull. clear. induction items as [|x xs IH]; [done|].
          simpl. rewrite rewritten_nullish. f_equal. apply IH. }
        simpl. split; [done|].
        rewrite <- list_fmap_compose.
        rewrite (list_fmap_ext (rewritten this ∘ rewritten this)
                   (rewritten this) items)
          by (intros; apply rewritten_idempotent).
        by apply assign_same. }
  all: rewrite (rewriteFunctions_not_array this st)
    by (intros items; by rewrite Hres).
  all: simpl; intros Hdoc.
  all: by rewrite (rewriteFunctions_not_array this st2)
    by (intros items; by rewrite Hdoc, Hres).
Qed.

Lemma rewriteFunctions_Resources this st :
  Js.prop "Resources" (document (rewriteFunctions this st).2)
  = Js.prop "Resources" (document st)
  ∨ ∃ items,
      Js.prop "Resources" (document (rewriteFunctions this st).2) = VArr items.
Proof.
  destruct (Js.prop "Resources" (document st)) as [| | | | |items|] eqn:Hres.
  6:{ rewrite (rewriteFunctions_array this st items Hres).
      destruct (existsb Js.nullish items); simpl; [by left|].
      right. exists (rewritten this <$> items).
      destruct (document st); try done. apply prop_assign_eq. }
  all: left.
  all: by rewrite (rewriteFunctions_not_array this st)
    by (intros items; by rewrite Hres).
Qed.

(** The template the call leaves never has the deployment bucket in a
    [Resources] mapping. *)
Lemma elaborateTemplate_bucket_removed this st :
  bucket_removed (document (elaborateTemplate this st).2).
Proof.
  assert (H1 : bucket_removed (document (deleteDeploymentBucket st).2)
    ∧ ((deleteDeploymentBucket st).1 ≠ Returned () →
       Js.nullish (Js.prop "Resources"
                     (document (deleteDeploymentBucket st).2)) = true)).
  { unfold deleteDeploymentBucket, bind, templateData, member, throw, ret,
      mutate.
    destruct (document st) as [| | | | | |d] eqn:Hdoc; simpl;
      rewrite ?Hdoc; try (split; [by intros r Hr|done]).
    destruct (default VUndefined (Props.get "Resources" d))
      as [| | | | | |r] eqn:Hr; simpl; rewrite ?Hdoc;
      try (split; [intros r' Hr'; simpl in Hr'; congruence|done]);
      try (split; [intros r' Hr'; simpl in Hr'; congruence|
                   simpl; by rewrite Hr]).
    split; [|done]. intros r' Hr'. simpl in Hr'.
    rewrite PropsFacts.get_set_eq in Hr'. injection Hr' as <-.
    apply PropsFacts.get_remove_eq. }
  destruct H1 as [H1 _].
  unfold elaborateTemplate, bind.
  destruct (deleteDeploymentBucket st) as [[[]|e|] st1]; simpl in H1;
    [|done..].
  set (rules := Js.entries _).
  pose proof (loop_Resources rules (Props.keys rules) st1) as Hloop.
  assert (H2 : bucket_removed
                 (document (for_each (Props.keys rules) (loop_body rules)
                              st1).2))
    by (intros r Hr; apply H1; congruence).
  destruct (for_each _ _ st1) as [[[]|e|] st2]; simpl in *; [|done..].
  assert (H3 : bucket_removed (document (rewriteFunctions this st2).2)).
  { destruct (rewriteFunctions_Resources this st2) as [Hsame|[items Hitems]];
      intros r Hr; [apply H2|]; congruence. }
  by destruct (rewriteFunctions this st2) as [[[]|e|] st3].
Qed.

Lemma loop_noop rules keys st :
  rules_applied rules (document st) →
  document (for_each keys (loop_body rules) st).2 = document st.
Proof.
  intros Happlied.
  apply (for_each_invariant (fun st' => document st' = document st));
    [|done].
  intros key st' _ H. rewrite <- H. apply loop_body_noop. by rewrite H.
Qed.

(** X8. Take a template that has [Resources] and whose [Parameters] is a
    mapping of names to parameter objects, with rules none of whose names
    missing from the template is a member of [Object.prototype].  A second
    call of [elaborateTemplate], on the template the first call left, ends
    as the first did (the same value returned or the same error thrown)
    and leaves the template as the first call left it. *)
Theorem elaborateTemplate_twice
    (this : plugin) (d ps : list (string * value)) (lg : list string)
    (fs : list (string * string)) :
  let rules := Js.entries (Js.prop "parameters" (shareConfig this)) in
  Js.nullish (Js.prop "Resources" (VObj d)) = false →
  Props.get "Parameters" d = Some (VObj ps) →
  parameter_objects ps →
  plain_names (Props.keys rules) ps →
  let first :=
    elaborateTemplate this {| document := VObj d; log := lg; files := fs |} in
  let second := elaborateTemplate this first.2 in
  second.1 = first.1 ∧ document second.2 = document first.2.
Proof.
  intros rules Hres Hps Hobj Hplain first second.
  (* the first call, step by step *)
  pose proof (elaborateTemplate_bucket_removed this
                {| document := VObj d; log := lg; files := fs |}) as Hgone.
  fold first in Hgone.
  assert (Hfirst : ∃ st2 d2 ps',
    first = (let (o, st') := rewriteFunctions this st2 in
             match o with
             | Returned _ => templateData st'
             | Threw e => (Threw e, st')
             | Unmodelled => (Unmodelled, st')
             end)
    ∧ document st2 = VObj d2
    ∧ Js.nullish (Js.prop "Resources" (VObj d2)) = false
    ∧ Props.get "Parameters" d2 = Some (VObj ps')
    ∧ parameter_objects ps'
    ∧ plain_names (Props.keys rules) ps'
    ∧ rules_applied rules (VObj d2)).
  { subst first. unfold elaborateTemplate, bind. fold rules.
    destruct (deleteDeploymentBucket_returns
                {| document := VObj d; log := lg; files := fs |} Hres)
      as (st1 & Hrun1 & HP1 & HR1 & Hl1 & Hf1).
    rewrite Hrun1.
    destruct (deleteDeploymentBucket_present d lg fs Hres)
      as (d1 & Hrun1' & Hd1).
    rewrite Hrun1' in Hrun1. injection Hrun1 as <-. simpl in HR1.
    rewrite <- Hd1 in Hps.
    pose proof (loop_Resources rules (Props.keys rules)
                  {| document := VObj d1; log := lg; files := fs |}) as HR2.
    destruct (loop_spec rules (Props.keys rules) d1 ps lg fs Hps Hobj Hplain)
      as (ps' & lg' & Hloop & Hdone & Hnone & _).
    rewrite Hloop in HR2 |- *. simpl in HR2.
    eexists _, _, ps'. split; [reflexivity|]. split; [reflexivity|].
    split; [simpl; by rewrite HR2|].
    split; [apply PropsFacts.get_set_eq|].
    assert (Hshape : ∀ name v', Props.get name ps' = Some v' →
      ∃ p, Props.get name ps = Some (VObj p)
           ∧ v' = VObj (if bool_decide (name ∈ Props.keys rules)
                        then rule_effect (rule_of rules name) p else p)).
    { intros name v' Hv'.
      destruct (Props.get name ps) as [v|] eqn:Hv;
        [|rewrite (Hnone name Hv) in Hv'; done].
      destruct (Hobj name v Hv) as [p ->]. exists p. split; [done|].
      rewrite (Hdone name p Hv) in Hv'. by injection Hv' as <-. }
    split; [|split].
    - intros name v' Hv'. destruct (Hshape name v' Hv') as (p & _ & ->).
      by eexists.
    - intros key Hin Hkey. apply Hplain; [done|].
      destruct (Props.get key ps) as [v|] eqn:Hv; [|done].
      destruct (Hobj key v Hv) as [p ->].
      by rewrite (Hdone key p Hv) in Hkey.
    - intros ps0 key rule p' HP Hrule Hp'. simpl in HP.
      rewrite PropsFacts.get_set_eq in HP. injection HP as <-.
      destruct (Hshape key _ Hp') as (p & _ & [= ->]).
      rewrite bool_decide_true by (by eapply PropsFacts.get_Some_keys).
      unfold rule_of, rule_effect. rewrite Hrule. simpl.
      split; intros ->; simpl.
      + apply PropsFacts.get_remove_eq.
      + apply PropsFacts.get_set_eq. }
  destruct Hfirst
    as (st2 & d2 & ps' & Hfirst & Hd2 & HR & HP & Hobj' & Hplain' & Happlied).
  (* what the third step left *)
  pose proof (rewriteFunctions_keeps this st2) as [HP3 _].
  pose proof (rewriteFunctions_Resources this st2) as HR3.
  assert (Hdoc3 : document first.2 = document (rewriteFunctions this st2).2
                  ∧ first.1
                    = match (rewriteFunctions this st2).1 with
                      | Returned _ =>
                          Returned (document (rewriteFunctions this st2).2)
                      | Threw e => Threw e
                      | Unmodelled => Unmodelled
                      end).
  { rewrite Hfirst.
    by destruct (rewriteFunctions this st2) as [[[]|e|] st3]. }
  destruct Hdoc3 as [Hdoc3 Hout1].
  set (st3 := first.2) in *.
  assert (Hobj3 : ∃ d3, document st3 = VObj d3
                        ∧ Props.get "Parameters" d3 = Some (VObj ps')
                        ∧ Js.nullish (Js.prop "Resources" (VObj d3)) = false).
  { rewrite Hdoc3. rewrite Hd2 in HP3, HR3. simpl in HP3. rewrite HP in HP3.
    destruct (document (rewriteFunctions this st2).2) as [| | | | | |d3];
      try done.
    exists d3. split; [done|]. simpl in HP3.
    split.
    - destruct (Props.get "Parameters" d3) eqn:E; simpl in HP3; by subst.
    - destruct HR3 as [->|[items ->]]; done. }
  destruct Hobj3 as (d3 & Hd3 & HP3' & HR3').
  assert (Happlied3 : rules_applied rules (document st3)).
  { intros ps0 key rule p Hps0. apply (Happlied ps0 key rule p).
    rewrite Hdoc3, HP3, Hd2 in Hps0. done. }
  (* the second call *)
  subst second. unfold elaborateTemplate, bind. fold rules.
  pose proof (deleteDeploymentBucket_noop st3 Hgone) as Hnoop1.
  destruct (deleteDeploymentBucket_returns st3) as (st1' & Hrun1 & _);
    [by rewrite Hd3|].
  rewrite Hrun1 in Hnoop1 |- *. simpl in Hnoop1. subst st1'.
  pose proof (loop_noop rules (Props.keys rules) st3 Happlied3) as Hnoop2.
  assert (Hret2 : (for_each (Props.keys rules) (loop_body rules) st3).1
                  = Returned ()).
  { destruct st3 as [doc3 lg3 fs3]. simpl in Hd3. subst doc3.
    destruct (loop_spec rules (Props.keys rules) d3 ps' lg3 fs3
                HP3' Hobj' Hplain') as (? & ? & -> & _). done. }
  destruct (for_each (Props.keys rules) (loop_body rules) st3)
    as [o2 st2'] eqn:Hloop2. simpl in Hret2, Hnoop2. subst o2.
  destruct (rewriteFunctions_again this st2 st2') as [Hout Hsame];
    [by rewrite Hnoop2|].
  rewrite Hout1.
  destruct (rewriteFunctions this st2') as [o3 st3'] eqn:Hrun3.
  simpl in Hout, Hsame. rewrite <- Hout.
  destruct o3 as [[]|e|]; simpl; rewrite Hsame, Hnoop2; split; try done.
  by rewrite Hdoc3.
Qed.

Lemma example_plain_names :
  plain_names (Props.keys (Js.entries example_rules)) example_parameter_list.
Proof.
  intros key Hin Hkey.
  repeat (apply elem_of_cons in Hin as [->|Hin]);
    [done..| by apply elem_of_nil in Hin].
Qed.

Lemma elaborateTemplate_twice_witness :
  (elaborateTemplate (example_plugin example_rules)
     (start example_template)).1 = Threw (TypeError 197)
  ∧ (elaborateTemplate (example_plugin example_rules)
       (elaborateTemplate (example_plugin example_rules)
          (start example_template)).2).1
    = (elaborateTemplate (example_plugin example_rules)
         (start example_template)).1
  ∧ document
      (elaborateTemplate (example_plugin example_rules)
         (elaborateTemplate (example_plugin example_rules)
            (start example_template)).2).2
    = document
        (elaborateTemplate (example_plugin example_rules)
           (start example_template)).2.
Proof.
  split; [reflexivity|].
  exact (elaborateTemplate_twice (example_plugin example_rules)
           example_template_props example_parameter_list [] []
           eq_refl eq_refl example_parameter_objects example_plain_names).
Defined.

(** ** getLatestVersion and init: more cases *)

(** X9. On a listing that ascends and is not empty, which is how S3 lists
    the common prefixes, [getLatestVersion] returns a listed prefix that is
    at least every listed prefix: the latest version. *)
Theorem getLatestVersion_greatest_when_ascending
    (h : host) (bucket path : string) (st : store)
    (listing : list common_prefix) :
  Js.nullish (options h) = false →
  listObjectsV2 h bucket path = Returned listing →
  listing ≠ [] →
  ascending listing →
  ∃ latest,
    getLatestVersion h bucket path st = (Returned (Prefix latest), st)
    ∧ latest ∈ listing
    ∧ ∀ item, item ∈ listing →
        String.leb (Prefix item) (Prefix latest) = true.
Proof.
  intros Hopts Hlist Hne Hasc.
  destruct listing as [|x l] using rev_ind; [done|]. clear IHl Hne.
  exists x.
  unfold getLatestVersion, bind, member, request, ret, throw.
  rewrite Hopts, Hlist, sort_common_prefixes, reverse_snoc. simpl.
  split; [done|]. split; [apply elem_of_app; right; apply list_elem_of_here|].
  intros item [Hin|Hin]%elem_of_app.
  - apply (StronglySorted_app_1_elem_of
             (fun a b => String.leb (Prefix a) (Prefix b) = true)
             l [x] item x Hasc Hin).
    apply list_elem_of_here.
  - apply list_elem_of_singleton in Hin as ->.
    by destruct (String.leb_total (Prefix x) (Prefix x)).
Qed.

Lemma listed_ascending_ascends : ascending listed_ascending.
Proof.
  unfold ascending, listed_ascending.
  repeat constructor.
Qed.

Lemma getLatestVersion_greatest_when_ascending_witness :
  ∃ latest,
    getLatestVersion (example_host listed_ascending (Returned ()))
      "deployment" "serverless/svc/dev/" (start VUndefined)
    = (Returned (Prefix latest), start VUndefined)
    ∧ latest ∈ listed_ascending.
Proof.
  destruct (getLatestVersion_greatest_when_ascending
              (example_host listed_ascending (Returned ()))
              "deployment" "serverless/svc/dev/" (start VUndefined)
              listed_ascending eq_refl eq_refl ltac:(discriminate)
              listed_ascending_ascends) as (latest & Hrun & Hin & _).
  by exists latest.
Defined.

(** X10. [init] ends with [Version not found] when the deployment bucket
    lists no version under the path of the service and stage; nothing is
    logged before. *)
Theorem init_version_not_found (h : host) (st : store) (bucket : string) :
  Js.nullish (options h) = false →
  getServerlessDeploymentBucketName h = Returned bucket →
  listObjectsV2 h bucket (path_join h ["serverless"; service h; stage h; "/"])
  = Returned [] →
  init h st = (Threw (Error "Version not found"), st).
Proof.
  intros Hopts Hbucket Hlist.
  unfold init, getLatestVersion, bind, member, request, ret, throw.
  by rewrite Hbucket, Hopts, Hlist.
Qed.

Lemma init_version_not_found_witness :
  init (example_host [] (Returned ())) (start VUndefined)
  = (Threw (Error "Version not found"), start VUndefined).
Proof.
  exact (init_version_not_found (example_host [] (Returned ()))
           (start VUndefined) "deployment" eq_refl eq_refl eq_refl).
Defined.

(** X11. [init] passes on the rejection of the provider, of the bucket name
    or of the listing, and logs nothing. *)
Theorem init_rejected (h : host) (st : store) (e : error) :
  Js.nullish (options h) = false →
  (getServerlessDeploymentBucketName h = Threw e
   ∨ ∃ bucket,
       getServerlessDeploymentBucketName h = Returned bucket
       ∧ listObjectsV2 h bucket
           (path_join h ["serverless"; service h; stage h; "/"])
         = Threw e) →
  init h st = (Threw e, st).
Proof.
  intros Hopts [Hbucket|(bucket & Hbucket & Hlist)];
    unfold init, getLatestVersion, bind, member, request, ret, throw;
    by rewrite Hbucket, ?Hopts, ?Hlist.
Qed.

Lemma init_rejected_witness :
  init example_host_unlisted (start VUndefined)
  = (Threw (Rejected "AccessDenied"), start VUndefined).
Proof.
  apply (init_rejected example_host_unlisted (start VUndefined)
           (Rejected "AccessDenied") eq_refl).
  right. by exists "deployment".
Defined.

(** X12. When the service has no [custom] section, [init] throws at line 90
    on reading [custom.share], after it has logged the version it found. *)
Theorem init_without_custom
    (h : host) (st : store) (bucket : string)
    (listed : list common_prefix) (last : common_prefix) :
  Js.nullish (options h) = false →
  Js.nullish (custom h) = true →
  getServerlessDeploymentBucketName h = Returned bucket →
  listObjectsV2 h bucket (path_join h ["serverless"; service h; stage h; "/"])
  = Returned (listed ++ [last])%list →
  init h st
  = (Threw (TypeError 90),
     {| document := document st;
        log := (log st ++ ["Deploying version " +:+ Prefix last +:+ ".."])%list;
        files := files st |}).
Proof.
  intros Hopts Hcustom Hbucket Hlist.
  unfold init, getLatestVersion, bind, member, request, ret, throw, cli_log.
  rewrite Hbucket, Hopts, Hlist, sort_common_prefixes, reverse_snoc. simpl.
  by rewrite Hcustom.
Qed.

Lemma init_without_custom_witness :
  init example_host_without_custom (start VUndefined)
  = (Threw (TypeError 90), example_started).
Proof.
  exact (init_without_custom example_host_without_custom (start VUndefined)
           "deployment"
           [ {| Prefix :=
                  "serverless/svc/dev/1700000000000-2023-11-14T22:13:20.000Z/" |} ]
           {| Prefix :=
                "serverless/svc/dev/1800000000000-2027-01-15T08:00:00.000Z/" |}
           eq_refl eq_refl eq_refl eq_refl).
Defined.

Lemma spread_get_in name v (es : list (string * value)) : ∀ base,
  NoDup (Props.keys es) →
  Props.get name es = Some v →
  Props.get name (foldl (fun ps e => Props.set e.1 e.2 ps) base es) = Some v.
Proof.
  unfold Props.keys.
  induction es as [|[k x] es IH]; intros base Hnodup Hget; simpl in *;
    [done|].
  apply NoDup_cons in Hnodup as [Hk Hnodup].
  destruct (decide (name = k)) as [->|Hne].
  - injection Hget as <-.
    rewrite (spread_get_other k es) by done.
    apply PropsFacts.get_set_eq.
  - by apply IH.
Qed.

(** X13. With a [custom.share] object, [init] resolves the destination from
    the options and the configuration as follows: the bucket is
    [options.bucket], else [share.bucket]; both the code key and the
    template key are [options.key], else [share.key]; the stack name is
    [options.stackName], else [share.stackName], else the service name. *)
Theorem init_resolves_destination
    (h : host) (st st' : store) (this : plugin)
    (share : list (string * value)) :
  init h st = (Returned this, st') →
  Js.prop "share" (custom h) = VObj share →
  NoDup (Props.keys share) →
  destBucket this
  = Js.or (Js.prop "bucket" (options h)) (Js.prop "bucket" (VObj share))
  ∧ destCodeKey this
    = Js.or (Js.prop "key" (options h)) (Js.prop "key" (VObj share))
  ∧ destTemplateKey this
    = Js.or (Js.prop "key" (options h)) (Js.prop "key" (VObj share))
  ∧ stackName this
    = Js.or (Js.prop "stackName" (options h))
        (default (VStr (service h)) (Props.get "stackName" share)).
Proof.
  intros Hinit Hshare Hnodup.
  destruct (init_returned h st this st' Hinit)
    as (Hcfg & -> & -> & -> & ->).
  rewrite Hcfg, Hshare. unfold spread. simpl.
  assert (Hget : ∀ name base,
    Props.get name
      (foldl (fun ps e => Props.set e.1 e.2 ps) base share)
    = match Props.get name share with
      | Some v => Some v
      | None => Props.get name base
      end).
  { intros name base. destruct (Props.get name share) as [v|] eqn:Hv.
    - by apply spread_get_in.
    - apply spread_get_other. by apply not_elem_of_keys. }
  rewrite !Hget. simpl.
  repeat split; by destruct (Props.get _ share).
Qed.

Lemma init_resolves_destination_witness :
  destBucket example_this = VStr "my-service-template-bucket"
  ∧ destCodeKey example_this = VUndefined
  ∧ stackName example_this = VStr "svc".
Proof.
  destruct (init_resolves_destination
              (example_host listed_ascending (Returned ()))
              (start VUndefined) example_started example_this
              [ ("bucket", VStr "my-public-bucket");
                ("stack", VStr "my-shared-service");
                ("codeKey", VStr "my-service/deployed/code.zip");
                ("templateKey", VStr "my-service/deployed/template.json");
                ("parameters", example_rules) ]
              example_init eq_refl) as (Hb & Hc & _ & Hs).
  - repeat (apply NoDup_cons; split;
            [intros H; repeat (apply elem_of_cons in H as [H|H];
                               [discriminate H|]);
             by apply elem_of_nil in H|]).
    apply NoDup_nil_2.
  - rewrite Hb, Hc, Hs. by repeat split.
Defined.

(** ** code and end: more cases *)

(** X14. However the stage ends, [code] leaves the template and the log as
    they are and changes no file but [/tmp/code.zip]. *)
Theorem code_touches_only_its_file (h : host) (this : plugin) (st : store) :
  document (code h this st).2 = document st
  ∧ log (code h this st).2 = log st
  ∧ ∀ path, path ≠ tmpPath →
      Props.get path (files (code h this st).2) = Props.get path (files st).
Proof.
  unfold code, downloadCode, uploadCode, bind, member, request,
    writeFileSync, unlinkSync, throw, ret.
  repeat case_match; simplify_eq; simpl; repeat split; try done;
    intros path Hne;
    rewrite ?PropsFacts.get_remove_ne, ?PropsFacts.get_set_ne; done.
Qed.

(** X15. When the download of the archive is rejected, [code] ends with
    that rejection and has written nothing: the store is as before. *)
Theorem code_download_rejected
    (h : host) (this : plugin) (st : store) (e : error) :
  Js.nullish (options h) = false →
  getObject h (deploymentBucket this) (sourceKey this) = Threw e →
  code h this st = (Threw e, st).
Proof.
  intros Hopts Hget.
  unfold code, downloadCode, bind, member, request, ret.
  by rewrite Hopts, Hget.
Qed.

Lemma code_download_rejected_witness :
  code example_host_unlisted example_this example_started
  = (Threw (Rejected "AccessDenied"), example_started).
Proof.
  exact (code_download_rejected example_host_unlisted example_this
           example_started (Rejected "AccessDenied") eq_refl eq_refl).
Defined.

(** X16. When the location of the destination bucket cannot be read, [end]
    ends with that rejection after the line that reports the version: no
    share link is logged. *)
Theorem end_location_rejected
    (h : host) (this : plugin) (st : store) (stack : string) (e : error) :
  Js.nullish (options h) = false →
  Js.to_string (stackName this) = Some stack →
  getBucketLocation h (destBucket this) = Threw e →
  end_ h this st
  = (Threw e,
     {| document := document st;
        log := (log st
                ++ ["Version " +:+ latestVersion this +:+ " deployed!"])%list;
        files := files st |}).
Proof.
  intros Hopts Hstack Hregion.
  unfold end_, getDestinationBucketRegion, print, bind, member, request,
    cli_log, ret.
  by rewrite Hstack, Hopts, Hregion.
Qed.

Lemma end_location_rejected_witness :
  (end_ example_host_unlisted example_this (start VUndefined)).1
  = Threw (Rejected "AccessDenied")
  ∧ log (end_ example_host_unlisted example_this (start VUndefined)).2
    = ["Version serverless/svc/dev/1800000000000-2027-01-15T08:00:00.000Z/ deployed!"].
Proof.
  rewrite (end_location_rejected example_host_unlisted example_this
             (start VUndefined) "svc" (Rejected "AccessDenied")
             eq_refl eq_refl eq_refl).
  by split.
Defined.

(** ** template and the whole command *)

(** [template] on a parsed template whose [Resources] is a mapping. *)
Lemma template_mapping JSON_parse h this st response_Body d r :
  Js.nullish (options h) = false →
  getObject h (deploymentBucket this)
    (path_join h [ latestVersion this;
                   "compiled-cloudformation-template.json" ])
  = Returned response_Body →
  JSON_parse response_Body = Returned (VObj d) →
  Props.get "Resources" d = Some (VObj r) →
  ∃ o st',
    template JSON_parse h this st = (o, st')
    ∧ o ≠ Returned ()
    ∧ (o, st')
      = (let run :=
           elaborateTemplate this
             {| document := VObj d; log := log st; files := files st |} in
         (match run.1 with
          | Returned _ => Returned ()
          | Threw e => Threw e
          | Unmodelled => Unmodelled
          end, run.2)).
Proof.
  intros Hopts Hget Hparse Hres.
  unfold template, getCurrentTemplate, bind, member, request, mutate, ret.
  rewrite Hopts, Hget, Hparse. simpl.
  destruct (elaborateTemplate_mapping this d r (log st) (files st) Hres)
    as [Hnever _].
  destruct (elaborateTemplate this _) as [[doc|e|] st1]; simpl in *.
  - by destruct (Hnever doc).
  - by eexists _, _.
  - by eexists _, _.
Qed.

(** X17. When the compiled template in the deployment bucket has a
    [Resources] mapping, as CloudFormation templates have, the stage
    [template] does not return, and what it does is the same whatever
    [putObject] would answer: the request that publishes the template is
    never made. *)
Theorem template_never_publishes_a_mapping
    (JSON_parse : string → outcome value) (h : host) (this : plugin)
    (st : store) (response_Body : string) (d r : list (string * value)) :
  Js.nullish (options h) = false →
  getObject h (deploymentBucket this)
    (path_join h [ latestVersion this;
                   "compiled-cloudformation-template.json" ])
  = Returned response_Body →
  JSON_parse response_Body = Returned (VObj d) →
  Props.get "Resources" d = Some (VObj r) →
  (template JSON_parse h this st).1 ≠ Returned ()
  ∧ ∀ answer,
      template JSON_parse (with_putObject h answer) this st
      = template JSON_parse h this st.
Proof.
  intros Hopts Hget Hparse Hres.
  destruct (template_mapping JSON_parse h this st response_Body d r
              Hopts Hget Hparse Hres) as (o & st' & Hrun & Hne & Hwhat).
  split; [by rewrite Hrun|].
  intros answer.
  destruct (template_mapping JSON_parse (with_putObject h answer) this st
              response_Body d r Hopts Hget Hparse Hres)
    as (o2 & st2 & Hrun2 & _ & Hwhat2).
  rewrite Hrun, Hrun2. congruence.
Qed.

Lemma template_never_publishes_a_mapping_witness :
  (template (example_parse example_template)
     (example_host listed_ascending (Returned ())) example_this
     example_started).1 = Threw (TypeError 197)
  ∧ template (example_parse example_template)
      (with_putObject (example_host listed_ascending (Returned ()))
         (fun _ => Threw (Rejected "AccessDenied")))
      example_this example_started
    = template (example_parse example_template)
        (example_host listed_ascending (Returned ())) example_this
        example_started.
Proof.
  split; [reflexivity|].
  exact (proj2 (template_never_publishes_a_mapping
                  (example_parse example_template)
                  (example_host listed_ascending (Returned ())) example_this
                  example_started "PK-archive" example_template_props
                  example_resource_list eq_refl eq_refl eq_refl eq_refl)
           (fun _ => Threw (Rejected "AccessDenied"))).
Defined.

(** X18. When [template] returns, [putObject] has answered the request to
    put, under the destination template key of the destination bucket and
    readable by everyone, the template as [elaborateTemplate] left it. *)
Theorem template_returns_after_put
    (JSON_parse : string → outcome value) (h : host) (this : plugin)
    (st : store) :
  (template JSON_parse h this st).1 = Returned () →
  putObject h
    {| Bucket := destBucket this;
       Key := destTemplateKey this;
       ACL := "public-read";
       ContentType := "application/json";
       Body := Json (document (template JSON_parse h this st).2) |}
  = Returned ().
Proof.
  unfold template, saveTemplate, saveTemplate_request, getCurrentTemplate,
    bind, member, request, mutate, throw, ret.
  destruct (Js.nullish (options h)); [done|].
  destruct (getObject h _ _) as [response_Body|e|]; try done.
  destruct (JSON_parse response_Body) as [parsed|e|]; try done.
  set (st0 := {| document := parsed; log := log st; files := files st |}).
  assert (Hret : ∀ doc, (elaborateTemplate this st0).1 = Returned doc →
                        doc = document (elaborateTemplate this st0).2).
  { unfold elaborateTemplate, bind, templateData.
    repeat case_match; simplify_eq; try done.
    by intros doc [= <-]. }
  destruct (elaborateTemplate this st0) as [[doc|e|] st1]; try done.
  simpl in *. rewrite (Hret doc eq_refl).
  by destruct (putObject h _) as [[]|e|].
Qed.

Lemma template_returns_after_put_witness :
  Js.prop "Resources"
    (document (template (example_parse example_array_template)
                 (example_host listed_ascending (Returned ()))
                 (example_plugin example_rules) example_started).2)
  = Js.prop "Resources" example_elaborated
  ∧ putObject (example_host listed_ascending (Returned ()))
      {| Bucket := VStr "pub";
         Key := VStr "v1/code.zip";
         ACL := "public-read";
         ContentType := "application/json";
         Body := Json (document
                         (template (example_parse example_array_template)
                            (example_host listed_ascending (Returned ()))
                            (example_plugin example_rules)
                            example_started).2) |}
    = Returned ().
Proof.
  split; [reflexivity|].
  exact (template_returns_after_put (example_parse example_array_template)
           (example_host listed_ascending (Returned ()))
           (example_plugin example_rules) example_started eq_refl).
Defined.

Lemma init_store h st :
  document (init h st).2 = document st
  ∧ files (init h st).2 = files st
  ∧ (∀ this, (init h st).1 = Returned this →
       Js.nullish (options h) = false).
Proof.
  unfold init, getLatestVersion, bind, member, request, cli_log, throw, ret.
  repeat case_match; simplify_eq; simpl; repeat split; done.
Qed.

(** X19. A run of the command on a service whose compiled template has a
    [Resources] mapping, as CloudFormation templates have, stops in the
    stage [template]: after [init] the log gets the line of
    [beforeTemplate] and then only warnings of line 186; the lines of
    [afterTemplate] and of the later stages are not logged, the command does
    not return, and no file is written: nothing is published and no archive
    is downloaded. *)
Theorem share_stops_at_template
    (JSON_parse : string → outcome value) (h : host) (st st0 : store)
    (this : plugin) (response_Body : string) (d r : list (string * value)) :
  init h st = (Returned this, st0) →
  getObject h (deploymentBucket this)
    (path_join h [ latestVersion this;
                   "compiled-cloudformation-template.json" ])
  = Returned response_Body →
  JSON_parse response_Body = Returned (VObj d) →
  Props.get "Resources" d = Some (VObj r) →
  (share JSON_parse h st).1 ≠ Returned ()
  ∧ files (share JSON_parse h st).2 = files st
  ∧ ∃ added : list string,
      log (share JSON_parse h st).2
      = (log st0 ++ "Deploying CloudFormation template.." :: added)%list
      ∧ ∀ line, line ∈ added → ∃ key, line = rule_warning key.
Proof.
  intros Hinit Hget Hparse Hres.
  destruct (init_store h st) as (_ & Hfiles & Hopts).
  rewrite Hinit in Hfiles, Hopts. simpl in Hfiles.
  specialize (Hopts this eq_refl).
  pose (st1 := {| document := document st0;
                  log := (log st0
                          ++ ["Deploying CloudFormation template.."])%list;
                  files := files st0 |}).
  destruct (template_mapping JSON_parse h this st1 response_Body d r
              Hopts Hget Hparse Hres) as (o & st' & Hrun & Hne & Hwhat).
  destruct (elaborateTemplate_log_files this
              {| document := VObj d; log := log st1; files := files st1 |})
    as [Hf (added & Hl & Ha)].
  cbv zeta in Hwhat. injection Hwhat as Ho Hst'.
  simpl in Hf, Hl, Hst'. rewrite <- Hst' in Hf, Hl. clear Hst' Ho.
  assert (Hshare : share JSON_parse h st
                   = (match o with
                      | Returned _ => (share JSON_parse h st).1
                      | Threw e => Threw e
                      | Unmodelled => Unmodelled
                      end, if o is Returned _ then (share JSON_parse h st).2
                           else st')).
  { unfold share, beforeTemplate. unfold bind at 1. rewrite Hinit.
    unfold bind at 1. unfold cli_log at 1. fold st1.
    unfold bind at 1. rewrite Hrun. by destruct o as [[]|e|]. }
  rewrite Hshare.
  destruct o as [[]|e|]; [done|..]; simpl.
  all: split; [done|]; split; [by rewrite Hf|].
  all: exists added; split;
    [rewrite Hl; simpl; by rewrite <- app_assoc|].
  all: intros line Hin; destruct (Ha line Hin) as (key & _ & ->);
    by exists key.
Qed.

Lemma share_stops_at_template_witness :
  (share (example_parse example_template)
     (example_host listed_ascending (Returned ())) (start VUndefined)).1
  = Threw (TypeError 197)
  ∧ log (share (example_parse example_template)
           (example_host listed_ascending (Returned ()))
           (start VUndefined)).2
    = [ "Deploying version serverless/svc/dev/1800000000000-2027-01-15T08:00:00.000Z/..";
        "Deploying CloudFormation template..";
        "Rule P3 cannot be applied, parameters not found" ]
  ∧ files (share (example_parse example_template)
             (example_host listed_ascending (Returned ()))
             (start VUndefined)).2 = [].
Proof.
  split; [reflexivity|]. split; [reflexivity|].
  exact (proj1 (proj2 (share_stops_at_template
                         (example_parse example_template)
                         (example_host listed_ascending (Returned ()))
                         (start VUndefined) example_started example_this
                         "PK-archive" example_template_props
                         example_resource_list
                         example_init eq_refl eq_refl eq_refl))).
Defined.
